(** * Event-Calendar: recurrence expansion and conflict detection

    A shallow embedding of [src/utils/dateUtils.js] and
    [src/utils/eventUtils.js].

    The JavaScript [Date] object and the [date-fns] helpers the two files
    import are modelled in [Module JSDate]:
    - a [Date] is its time value in milliseconds, or [None] for the NaN time
      value ("Invalid Date"); every operation that writes a time value goes
      through [TimeClip], as ECMAScript prescribes;
    - local time is taken to be a fixed-offset zone (no daylight saving), so
      local calendar fields are computed directly from the time value;
    - the calendar is the proleptic Gregorian calendar of ECMAScript, computed
      through the day number of the first day of a month ([monthStart]). *)

From Stdlib Require Import ZArith List String Ascii Bool Lia Sorted.
From Stdlib Require Import DecimalString Permutation.
Import ListNotations.
Open Scope Z_scope.

(** * The model *)

Module JSDate.

(** *** Time values *)

Definition msPerDay : Z := 86400000.
Definition maxTime : Z := 8640000000000000.

(** The time value of a Date object; [None] is NaN. *)
Definition Date : Type := option Z.

Definition TimeClip (t : Z) : Date :=
  if Z.abs t <=? maxTime then Some t else None.

Definition Day (t : Z) : Z := t / msPerDay.
Definition TimeWithinDay (t : Z) : Z := t mod msPerDay.
Definition MakeDate (day time : Z) : Z := day * msPerDay + time.

(** *** The calendar *)

(** Day number (days since 1970-01-01) of the first day of month [k], where
    [k = 12 * year + month] counts months from January of year 0 and [month]
    is zero-based.  Years are shifted to start in March so that the leap day
    is the last day of the shifted year. *)
Definition monthStart (k : Z) : Z :=
  let ys := (k - 2) / 12 in
  let mp := (k - 2) mod 12 in
  365 * ys + ys / 4 - ys / 100 + ys / 400 + (153 * mp + 2) / 5 - 719468.

(** The month index [12 * year + month] of the month that contains day
    number [d]: an estimate from the mean month length (146097 days in 4800
    months), corrected by at most one month against [monthStart]. *)
Definition monthOfDay (d : Z) : Z :=
  let k := (4800 * (d + 719468)) / 146097 + 2 in
  if d <? monthStart k then k - 1
  else if monthStart (k + 1) <=? d then k + 1
  else k.

Definition YearFromTime (t : Z) : Z := monthOfDay (Day t) / 12.
Definition MonthFromTime (t : Z) : Z := monthOfDay (Day t) mod 12.
Definition DateFromTime (t : Z) : Z :=
  Day t - monthStart (monthOfDay (Day t)) + 1.

(** ECMAScript MakeDay: [month] and [date] may lie outside their usual
    ranges and carry over. *)
Definition MakeDay (year month date : Z) : Z :=
  monthStart (12 * year + month) + date - 1.

(** *** Date.prototype methods (on a valid time value) *)

Definition setDate (t : Z) (dt : Z) : Date :=
  TimeClip (MakeDate (MakeDay (YearFromTime t) (MonthFromTime t) dt)
                     (TimeWithinDay t)).

Definition setMonth (t : Z) (month dt : Z) : Date :=
  TimeClip (MakeDate (MakeDay (YearFromTime t) month dt) (TimeWithinDay t)).

Definition setFullYear (t : Z) (year month dt : Z) : Date :=
  TimeClip (MakeDate (MakeDay year month dt) (TimeWithinDay t)).

(** [setHours(0, 0, 0, 0)] *)
Definition setHoursZero (t : Z) : Date :=
  TimeClip (MakeDate (Day t) 0).

(** *** Relational operators on Date objects

    [a < b] and [a <= b] compare the time values; any comparison with NaN
    is false. *)
Definition date_lt (a b : Date) : bool :=
  match a, b with
  | Some x, Some y => x <? y
  | _, _ => false
  end.

Definition date_le (a b : Date) : bool :=
  match a, b with
  | Some x, Some y => x <=? y
  | _, _ => false
  end.

(** *** date-fns *)

Definition isValid (d : Date) : bool :=
  match d with
  | Some _ => true
  | None => false
  end.

Definition startOfDay (d : Date) : Date :=
  match d with
  | Some t => setHoursZero t
  | None => None
  end.

(** [+startOfDay(l) === +startOfDay(r)]; NaN is not equal to NaN. *)
Definition isSameDay (l r : Date) : bool :=
  match startOfDay l, startOfDay r with
  | Some x, Some y => x =? y
  | _, _ => false
  end.

Definition addDays (d : Date) (amount : Z) : Date :=
  match d with
  | None => None
  | Some t =>
      if amount =? 0 then Some t
      else setDate t (DateFromTime t + amount)
  end.

Definition addWeeks (d : Date) (amount : Z) : Date :=
  addDays d (amount * 7).

(** The day of the month is kept unless the target month is shorter, in
    which case the last day of the target month is returned. *)
Definition addMonths (d : Date) (amount : Z) : Date :=
  match d with
  | None => None
  | Some t =>
      if amount =? 0 then Some t
      else
        let dayOfMonth := DateFromTime t in
        match setMonth t (MonthFromTime t + amount + 1) 0 with
        | None => None
        | Some e =>
            let daysInMonth := DateFromTime e in
            if dayOfMonth >=? daysInMonth then Some e
            else setFullYear t (YearFromTime e) (MonthFromTime e) dayOfMonth
        end
  end.

Definition addYears (d : Date) (amount : Z) : Date :=
  addMonths d (amount * 12).

(** A time value a Date object can hold. *)
Definition wfDate (d : Date) : Prop :=
  match d with
  | Some t => - maxTime <= t <= maxTime
  | None => True
  end.

(** Local midnight / local time of a calendar date, as the parsers build
    it ([month] is 1-based here). *)
Definition civil (year month day : Z) : Date :=
  TimeClip (MakeDate (MakeDay year (month - 1) day) 0).

Definition civilTime (year month day hour minute : Z) : Date :=
  TimeClip (MakeDate (MakeDay year (month - 1) day)
                     (hour * 3600000 + minute * 60000)).

Definition daysInMonth (year month : Z) : Z :=
  monthStart (12 * year + month) - monthStart (12 * year + month - 1).

End JSDate.

(** ** dateUtils.js: recurrence expansion *)

Module DateUtils.
Import JSDate.
Open Scope string_scope.
Open Scope Z_scope.

(** [Math.max(1, Math.min(interval || 1, 365))] *)
Definition safeInterval (interval : Z) : Z :=
  Z.max 1 (Z.min (if interval =? 0 then 1 else interval) 365).

Definition maxIterations : Z := 1000.

(** The [switch (pattern)] of the loop body: the advanced cursor, or [None]
    for the [default] branch, which returns from the function. *)
Definition advance (pattern : string) (safeInterval : Z) (currentDate : Date)
  : option Date :=
  if String.eqb pattern "daily" then
    Some (addDays currentDate safeInterval)
  else if String.eqb pattern "weekly" then
    Some (addWeeks currentDate safeInterval)
  else if String.eqb pattern "monthly" then
    Some (addMonths currentDate safeInterval)
  else None.

(** The variables the loop updates. *)
Record LoopState : Type := mkLoop {
  dates : list Date;
  currentDate : Date;
  iterations : Z
}.

(** [while (currentDate < maxDate && iterations < maxIterations) { ... }].
    [fuel] only makes the recursion structural: the loop counter
    [iterations] stops the loop before [fuel] runs out
    (see [whileLoop_fuel]). *)
Fixpoint whileLoop (fuel : nat) (pattern : string) (safeInterval : Z)
    (maxDate : Date) (st : LoopState) : LoopState :=
  if date_lt (currentDate st) maxDate && (iterations st <? maxIterations) then
    match fuel with
    | O => st
    | S fuel' =>
        let iterations' := iterations st + 1 in
        match advance pattern safeInterval (currentDate st) with
        | None => mkLoop (dates st) (currentDate st) iterations'
        | Some next =>
            whileLoop fuel' pattern safeInterval maxDate
              (mkLoop (if date_le next maxDate
                       then dates st ++ [startOfDay next]
                       else dates st)
                      next iterations')
        end
    end
  else st.

(** [endDate && isValid(endDate) ? endDate : addYears(startDate, 1)];
    an omitted [endDate] is [None]. *)
Definition effectiveMaxDate (startDate : Date) (endDate : option Date) : Date :=
  match endDate with
  | Some e => if isValid e then e else addYears startDate 1
  | None => addYears startDate 1
  end.

(** The state in which the loop of [generateRecurringDates] starts:
    [dates = [startOfDay(startDate)]], [currentDate = new Date(startDate)],
    [iterations = 0]. *)
Definition initialState (startDate : Date) : LoopState :=
  mkLoop [startOfDay startDate] startDate 0.

(** The state in which the loop of [generateRecurringDates] stops, for a
    valid [startDate]. *)
Definition runRecurrence (startDate : Date) (pattern : string) (interval : Z)
    (endDate : option Date) : LoopState :=
  whileLoop (Z.to_nat maxIterations) pattern (safeInterval interval)
    (effectiveMaxDate startDate endDate) (initialState startDate).

(** [interval] is an integer here; a call that omits it passes the default
    1.  [endDate] is [None] when the caller omits it. *)
Definition generateRecurringDates (startDate : Date) (pattern : string)
    (interval : Z) (endDate : option Date) : list Date :=
  if negb (isValid startDate) then []
  else dates (runRecurrence startDate pattern interval endDate).

(** The loop condition, as the source writes it. *)
Definition continues (maxDate : Date) (st : LoopState) : bool :=
  date_lt (currentDate st) maxDate && (iterations st <? maxIterations).

(** The patterns the [switch] knows. *)
Definition knownPattern (pattern : string) : bool :=
  String.eqb pattern "daily" || String.eqb pattern "weekly"
  || String.eqb pattern "monthly".

End DateUtils.

(** ** eventUtils.js: occurrence lookup and conflict detection *)

(** The fields of a stored event. *)
Module Event.
Record t : Type := make {
  id : option string;             (* [None]: no [id] property (undefined) *)
  title : string;
  date : string;
  startTime : string;
  endTime : string;
  description : string;
  category : string;
  recurring : bool;
  recurrencePattern : string;
  recurrenceInterval : option Z   (* [None]: property absent *)
}.
End Event.

Module EventUtils.
Import JSDate DateUtils.
Open Scope string_scope.
Open Scope Z_scope.

(** [a > b] on Date objects. *)
Definition date_gt (a b : Date) : bool := date_lt b a.

(** [a === b] on the [id] properties. *)
Definition id_eqb (a b : option string) : bool :=
  match a, b with
  | Some x, Some y => String.eqb x y
  | None, None => true
  | _, _ => false
  end.

(** [event.recurrenceInterval || 1] *)
Definition intervalOrOne (i : option Z) : Z :=
  match i with
  | Some n => if n =? 0 then 1 else n
  | None => 1
  end.

Section Resolver.

(** The two string parsers the code relies on are parameters of the
    model: [parseISO] of date-fns and the [Date] constructor applied to a
    string.  [now] is the time value that [new Date()] returns during the
    call. *)
Variable parseISO : string -> Date.
Variable newDate : string -> Date.

(** dateUtils.js [parseDate]: an unparseable string yields the current
    time. *)
Definition parseDate (now : Z) (dateString : string) : Date :=
  let parsed := parseISO dateString in
  if isValid parsed then parsed else Some now.

(** The callback of [events.filter] in [getEventsForDate]. *)
Definition occursOn (now : Z) (date : Date) (event : Event.t) : bool :=
  if Event.recurring event
     && negb (String.eqb (Event.recurrencePattern event) "none")
  then
    let eventStartDate := parseDate now (Event.date event) in
    if negb (isValid eventStartDate) then false
    else
      let recurringDates :=
        generateRecurringDates eventStartDate
          (Event.recurrencePattern event)
          (intervalOrOne (Event.recurrenceInterval event)) None in
      existsb (fun recurringDate => isSameDay recurringDate date)
              recurringDates
  else
    let eventDate := parseDate now (Event.date event) in
    isValid eventDate && isSameDay eventDate date.

Definition getEventsForDate (now : Z) (events : list Event.t) (date : Date)
  : list Event.t :=
  if negb (isValid date) then []
  else filter (occursOn now date) events.

(** [new Date(`${event.date}T${time}`)] *)
Definition dateTimeOf (event : Event.t) (time : string) : Date :=
  newDate (Event.date event ++ "T" ++ time).

(** The callback of [existingEvents.filter] in [checkEventConflicts]. *)
Definition conflictFilter (now : Z) (newEvent : Event.t) (newStart newEnd : Date)
    (event : Event.t) : bool :=
  if id_eqb (Event.id event) (Event.id newEvent) then false
  else
    let eventDate := parseDate now (Event.date event) in
    let newEventDate := parseDate now (Event.date newEvent) in
    if negb (isValid eventDate) || negb (isValid newEventDate) then false
    else if negb (isSameDay eventDate newEventDate) then false
    else
      let existingStart := dateTimeOf event (Event.startTime event) in
      let existingEnd := dateTimeOf event (Event.endTime event) in
      if negb (isValid existingStart) || negb (isValid existingEnd)
      then false
      else date_lt newStart existingEnd && date_gt newEnd existingStart.

Definition checkEventConflicts (now : Z) (newEvent : Event.t)
    (existingEvents : list Event.t) : list Event.t :=
  let newStart := dateTimeOf newEvent (Event.startTime newEvent) in
  let newEnd := dateTimeOf newEvent (Event.endTime newEvent) in
  if negb (isValid newStart) || negb (isValid newEnd) then []
  else filter (conflictFilter now newEvent newStart newEnd) existingEvents.

End Resolver.

End EventUtils.

(** ** The stored date formats

    Event dates are written by the form as [yyyy-MM-dd] and times as
    [HH:mm].  [IsoFormat] gives the two parsers on these formats; any other
    string yields an invalid Date here. *)

Module IsoFormat.
Import JSDate.
Open Scope Z_scope.

Definition digit (c : ascii) : option Z :=
  let n := Z.of_nat (nat_of_ascii c) in
  if (48 <=? n) && (n <=? 57) then Some (n - 48) else None.

Definition num2 (a b : ascii) : option Z :=
  match digit a, digit b with
  | Some x, Some y => Some (10 * x + y)
  | _, _ => None
  end.

Definition num4 (a b c d : ascii) : option Z :=
  match num2 a b, num2 c d with
  | Some x, Some y => Some (100 * x + y)
  | _, _ => None
  end.

Definition isDash (c : ascii) : bool := Ascii.eqb c "-"%char.
Definition isColon (c : ascii) : bool := Ascii.eqb c ":"%char.
Definition isT (c : ascii) : bool := Ascii.eqb c "T"%char.

Definition validYMD (y m d : Z) : bool :=
  (1 <=? m) && (m <=? 12) && (1 <=? d) && (d <=? daysInMonth y m).

(** [YYYY-MM-DD] at the head of the characters, and what follows it. *)
Definition readYMD (cs : list ascii) : option (Z * Z * Z * list ascii) :=
  match cs with
  | y1 :: y2 :: y3 :: y4 :: s1 :: m1 :: m2 :: s2 :: d1 :: d2 :: rest =>
      match num4 y1 y2 y3 y4, num2 m1 m2, num2 d1 d2 with
      | Some y, Some m, Some d =>
          if isDash s1 && isDash s2 && validYMD y m d
          then Some (y, m, d, rest) else None
      | _, _, _ => None
      end
  | _ => None
  end.

(** date-fns [parseISO] on a calendar date: local midnight of that day. *)
Definition parseISO (s : string) : Date :=
  match readYMD (list_ascii_of_string s) with
  | Some (y, m, d, []) => civil y m d
  | _ => None
  end.

(** [new Date(s)] on [YYYY-MM-DDTHH:mm]: that local time. *)
Definition newDate (s : string) : Date :=
  match readYMD (list_ascii_of_string s) with
  | Some (y, m, d, [t; h1; h2; c; n1; n2]) =>
      match num2 h1 h2, num2 n1 n2 with
      | Some h, Some n =>
          if isT t && isColon c && (h <=? 23) && (n <=? 59)
          then civilTime y m d h n else None
      | _, _ => None
      end
  | _ => None
  end.

End IsoFormat.

Import JSDate DateUtils EventUtils.
Open Scope string_scope.
Open Scope Z_scope.

(** ** Sample events *)

Definition timed (id date startTime endTime : string) : Event.t :=
  Event.make (Some id) "event" date startTime endTime "" "other"
             false "none" (Some 1).

Definition repeating (id date startTime endTime pattern : string) (interval : Z)
  : Event.t :=
  Event.make (Some id) "event" date startTime endTime "" "other"
             true pattern (Some interval).

(** 2024-03-05 12:00 and 2024-03-06 12:00 as time values of the clock. *)
Definition noon_2024_03_05 : Z := 1709640000000.
Definition noon_2024_03_06 : Z := 1709726400000.

(** ** dateUtils.js: the month grid and month navigation *)

(** The other date-fns functions that dateUtils.js imports (week starts on
    Sunday, the library default). *)
Module DateFns.
Import JSDate.
Open Scope Z_scope.

(** [getDay()]: 0 is Sunday. *)
Definition WeekDay (t : Z) : Z := (Day t + 4) mod 7.

(** [setHours(23, 59, 59, 999)] *)
Definition setHoursEnd (t : Z) : Date :=
  TimeClip (MakeDate (Day t) 86399999).

(** [setDate(1); setHours(0, 0, 0, 0)] *)
Definition startOfMonth (d : Date) : Date :=
  match d with
  | None => None
  | Some t =>
      match setDate t 1 with
      | None => None
      | Some t1 => setHoursZero t1
      end
  end.

(** [setFullYear(getFullYear(), getMonth() + 1, 0); setHours(23, 59, 59, 999)] *)
Definition endOfMonth (d : Date) : Date :=
  match d with
  | None => None
  | Some t =>
      match setFullYear t (YearFromTime t) (MonthFromTime t + 1) 0 with
      | None => None
      | Some t1 => setHoursEnd t1
      end
  end.

Definition weekStartsOn : Z := 0.

Definition startOfWeek (d : Date) : Date :=
  match d with
  | None => None
  | Some t =>
      let day := WeekDay t in
      let diff := (if day <? weekStartsOn then 7 else 0) + day - weekStartsOn in
      match setDate t (DateFromTime t - diff) with
      | None => None
      | Some t1 => setHoursZero t1
      end
  end.

Definition endOfWeek (d : Date) : Date :=
  match d with
  | None => None
  | Some t =>
      let day := WeekDay t in
      let diff :=
        (if day <? weekStartsOn then -7 else 0) + 6 - (day - weekStartsOn) in
      match setDate t (DateFromTime t + diff) with
      | None => None
      | Some t1 => setHoursEnd t1
      end
  end.

Definition subMonths (d : Date) (amount : Z) : Date := addMonths d (- amount).

(** Same year and same month; false when a date is invalid. *)
Definition isSameMonth (l r : Date) : bool :=
  match l, r with
  | Some a, Some b =>
      (YearFromTime a =? YearFromTime b) && (MonthFromTime a =? MonthFromTime b)
  | _, _ => false
  end.

(** [isSameDay(date, Date.now())] *)
Definition isToday (now : Z) (d : Date) : bool := isSameDay d (Some now).

End DateFns.

Module CalendarGrid.
Import JSDate DateFns.
Open Scope Z_scope.

(** [while (currentDate <= endDate) { days.push(new Date(currentDate));
    currentDate = addDays(currentDate, 1) }].  [fuel] makes the recursion
    structural; [getCalendarDays] supplies the number of days from the first
    to the last day of the grid, which the loop never exceeds
    (see [calendarLoop_more_fuel]). *)
Fixpoint calendarLoop (fuel : nat) (endDate currentDate : Date)
    (days : list Date) : list Date :=
  if date_le currentDate endDate then
    match fuel with
    | O => days
    | S fuel' =>
        calendarLoop fuel' endDate (addDays currentDate 1)
                     (days ++ [currentDate])
    end
  else days.

(** Number of calendar days from [startDate] to [endDate], both included. *)
Definition daySpan (startDate endDate : Date) : nat :=
  match startDate, endDate with
  | Some s, Some e => Z.to_nat (Day e - Day s + 1)
  | _, _ => O
  end.

Definition getCalendarDays (date : Date) : list Date :=
  if negb (isValid date) then []
  else
    let monthStart := startOfMonth date in
    let monthEnd := endOfMonth date in
    let startDate := startOfWeek monthStart in
    let endDate := endOfWeek monthEnd in
    calendarLoop (daySpan startDate endDate) endDate startDate [].

Definition isCurrentMonth (date monthDate : Date) : bool :=
  if isValid date && isValid monthDate then isSameMonth date monthDate
  else false.

Definition isDateToday (now : Z) (date : Date) : bool :=
  if isValid date then isToday now date else false.

Definition isSameDateDay (date1 date2 : Date) : bool :=
  if isValid date1 && isValid date2 then isSameDay date1 date2 else false.

(** An invalid date is replaced by the current time. *)
Definition getPreviousMonth (now : Z) (date : Date) : Date :=
  if isValid date then subMonths date 1 else Some now.

Definition getNextMonth (now : Z) (date : Date) : Date :=
  if isValid date then addMonths date 1 else Some now.

End CalendarGrid.

(** ** Formatting dates, and the event list of Calendar.jsx *)

(** date-fns [format] for the pattern ['yyyy-MM-dd'], the one the
    application stores dates with. *)
Module DateFormat.
Import JSDate.
Open Scope string_scope.
Open Scope Z_scope.

(** [String(n)] for a number that is not negative. *)
Definition decimal (n : Z) : string :=
  NilZero.string_of_uint (N.to_uint (Z.to_N n)).

(** [s.padStart(targetLength, "0")] *)
Definition padStart (targetLength : nat) (s : string) : string :=
  string_of_list_ascii (repeat "0"%char (targetLength - String.length s))
  ++ s.

(** [addLeadingZeros(number, targetLength)] *)
Definition addLeadingZeros (number : Z) (targetLength : nat) : string :=
  (if number <? 0 then "-" else "")
  ++ padStart targetLength (decimal (Z.abs number)).

(** Token [yyyy]: the year of the era, so that year 0 is printed as 1. *)
Definition format_yyyy (t : Z) : string :=
  let signedYear := YearFromTime t in
  let year := if 0 <? signedYear then signedYear else 1 - signedYear in
  addLeadingZeros year 4.

Definition format_MM (t : Z) : string := addLeadingZeros (MonthFromTime t + 1) 2.
Definition format_dd (t : Z) : string := addLeadingZeros (DateFromTime t) 2.

(** [format(date, 'yyyy-MM-dd')] for a valid date. *)
Definition format_yyyy_MM_dd (t : Z) : string :=
  format_yyyy t ++ "-" ++ format_MM t ++ "-" ++ format_dd t.

Section FormatDate.

(** [parseISO] and [format] of date-fns; [format] is applied to valid dates
    only. *)
Variable parseISO : string -> Date.
Variable format : Z -> string -> string.


End FormatDate.

End DateFormat.

(** The updates of the event list in Calendar.jsx, as functions of the
    previous list. *)
Module CalendarState.
Import JSDate EventUtils.
Open Scope string_scope.

(** [{ ...event, id }] *)
Definition withId (e : Event.t) (id : option string) : Event.t :=
  Event.make id (Event.title e) (Event.date e) (Event.startTime e)
    (Event.endTime e) (Event.description e) (Event.category e)
    (Event.recurring e) (Event.recurrencePattern e)
    (Event.recurrenceInterval e).

(** [{ ...event, date }] *)
Definition withDate (e : Event.t) (date : string) : Event.t :=
  Event.make (Event.id e) (Event.title e) date (Event.startTime e)
    (Event.endTime e) (Event.description e) (Event.category e)
    (Event.recurring e) (Event.recurrencePattern e)
    (Event.recurrenceInterval e).

(** [prevEvents.filter(event => event.id !== eventId)] *)
Definition handleDeleteEvent (eventId : option string)
    (prevEvents : list Event.t) : list Event.t :=
  filter (fun event => negb (id_eqb (Event.id event) eventId)) prevEvents.

(** [editingEvent] is [None] when a new event is saved; [newId] is the
    string that [generateTimestampId()] returns in that case. *)
Definition handleSaveEvent (editingEvent : option Event.t) (newId : string)
    (eventData : Event.t) (prevEvents : list Event.t) : list Event.t :=
  match editingEvent with
  | Some editing =>
      map (fun event =>
             if id_eqb (Event.id event) (Event.id editing)
             then withId eventData (Event.id editing)
             else event)
          prevEvents
  | None => prevEvents ++ [withId eventData (Some newId)]
  end.

(** [format] is date-fns [format]; [newDate] is the time value of the valid
    date the event is dropped on. *)
Definition handleEventDrop (format : Z -> string -> string)
    (eventId : option string) (newDate : Z) (events : list Event.t)
  : list Event.t :=
  match find (fun e => id_eqb (Event.id e) eventId) events with
  | Some event =>
      let updatedEvent := withDate event (format newDate "yyyy-MM-dd") in
      map (fun e => if id_eqb (Event.id e) eventId then updatedEvent else e)
          events
  | None => events
  end.

End CalendarState.

(** ** eventUtils.js: sorting events *)

Module EventOrder.
Open Scope string_scope.
Open Scope Z_scope.

(** [a.startTime || '00:00'] *)
Definition startTimeOrMidnight (e : Event.t) : string :=
  if String.eqb (Event.startTime e) "" then "00:00" else Event.startTime e.

Section Sort.

(** [String.prototype.localeCompare]: negative, zero or positive; the order
    depends on the locale of the host. *)
Variable localeCompare : string -> string -> Z.

(** The comparison function passed to [sort]. *)
Definition compareByTime (a b : Event.t) : Z :=
  localeCompare (startTimeOrMidnight a) (startTimeOrMidnight b).

(** [Array.prototype.sort] is stable.  An element is put in front of the
    first element of the sorted rest that it does not compare greater
    than. *)
Fixpoint insertByTime (x : Event.t) (sorted : list Event.t) : list Event.t :=
  match sorted with
  | [] => [x]
  | y :: rest =>
      if compareByTime x y <=? 0 then x :: y :: rest
      else y :: insertByTime x rest
  end.

(** [[...events].sort(compare)] *)
Definition sortEventsByTime (events : list Event.t) : list Event.t :=
  fold_right insertByTime [] events.

End Sort.

End EventOrder.

(** ** eventUtils.js: sample events *)

Module SampleData.
Import JSDate.
Open Scope string_scope.
Open Scope Z_scope.

(** [now] is the time value of [new Date()]; [tomorrow] is
    [today.setDate(today.getDate() + 1)].  [format] throws on an invalid
    date, in which case there is no result. *)
Definition generateSampleEvents (format : Z -> string -> string) (now : Z)
  : option (list Event.t) :=
  let today := now in
  match setDate today (DateFromTime today + 1) with
  | None => None
  | Some tomorrow =>
      Some
        [ Event.make (Some "sample-1") "Team Meeting"
            (format today "yyyy-MM-dd") "09:00" "10:00"
            "Weekly team standup meeting" "work" true "weekly" (Some 1);
          Event.make (Some "sample-2") "Lunch Break"
            (format today "yyyy-MM-dd") "12:00" "13:00"
            "Daily lunch break" "personal" true "daily" (Some 1);
          Event.make (Some "sample-3") "Doctor Appointment"
            (format tomorrow "yyyy-MM-dd") "14:30" "15:30"
            "Annual checkup" "health" false "none" None ]
  end.

End SampleData.

(** ** Definitions used in the proofs *)

Module ProofDefs.
Import JSDate DateUtils.
Open Scope Z_scope.

(** *** Bounded checks by evaluation *)

Fixpoint checkFrom (n : nat) (z : Z) (P : Z -> bool) : bool :=
  match n with
  | O => true
  | S k => P z && checkFrom k (z + 1) P
  end.

(** [P] holds on [0, n). *)
Definition checkBelow (n : Z) (P : Z -> bool) : bool :=
  checkFrom (Z.to_nat n) 0 P.

Definition monthStart_ok (k : Z) : bool :=
  (28 <=? monthStart (k + 1) - monthStart k) &&
  (monthStart (k + 1) - monthStart k <=? 31) &&
  (monthStart (k + 12) - monthStart k <=? 366).

(** *** The calendar as a table, to compare [monthStart] with *)

Definition isLeapYear (y : Z) : bool :=
  (y mod 4 =? 0) && (negb (y mod 100 =? 0) || (y mod 400 =? 0)).

(** Length of month [m] (1 to 12) of year [y]. *)
Definition monthLength (y m : Z) : Z :=
  if m =? 2 then (if isLeapYear y then 29 else 28)
  else if (m =? 4) || (m =? 6) || (m =? 9) || (m =? 11) then 30
  else 31.

Definition monthLength_ok (k : Z) : bool :=
  monthStart (k + 1) - monthStart k =? monthLength (k / 12) (k mod 12 + 1).

(** Strict order on Date objects, as a proposition. *)
Definition before (a b : Date) : Prop := date_lt a b = true.

(** A date moved forward by at least a day, or out of the range of time
    values. *)
Definition forwardOf (t : Z) (next : Date) : Prop :=
  match next with
  | Some u => t + msPerDay <= u /\ wfDate (Some u)
  | None => True
  end.

(** Every element is a valid date no later than midnight of the cursor's
    day. *)
Definition behindCursor (st : LoopState) : Prop :=
  match currentDate st with
  | Some t =>
      wfDate (Some t) /\
      Forall (fun d => exists x, d = Some x /\ x <= Day t * msPerDay) (dates st)
  | None => True
  end.

(** The event with its recurrence switched off. *)
Definition asSingle (e : Event.t) : Event.t :=
  Event.make (Event.id e) (Event.title e) (Event.date e) (Event.startTime e)
    (Event.endTime e) (Event.description e) (Event.category e)
    false (Event.recurrencePattern e) (Event.recurrenceInterval e).

(** The midnights of the days [d], [d + n], [d + 2 n], ...: [count] of
    them. *)
Definition everyNthDay (d n : Z) (count : nat) : list Date :=
  map (fun k => Some ((d + Z.of_nat k * n) * msPerDay)) (seq 0 count).

(** Days between two occurrences of the daily and weekly patterns. *)
Definition stepDays (pattern : string) (interval : Z) : Z :=
  if String.eqb pattern "weekly" then safeInterval interval * 7
  else safeInterval interval.

(** Number of days of the month with index [k]. *)
Definition daysOfMonthIndex (k : Z) : Z := monthStart (k + 1) - monthStart k.

(** Two consecutive occurrences of the monthly pattern: the later one lies
    [n] months after the earlier one, on the same day of the month unless
    that month is shorter, in which case on its last day. *)
Definition monthlyStep (n : Z) (a b : Date) : Prop :=
  exists u v,
    a = Some u /\ b = Some v /\
    monthOfDay (Day v) = monthOfDay (Day u) + n /\
    DateFromTime v
      = Z.min (DateFromTime u) (daysOfMonthIndex (monthOfDay (Day v))) /\
    TimeWithinDay v = 0.

(** The last element of [dates] is the midnight of the cursor's day, as
    long as the cursor has not passed the horizon. *)
Definition cursorIsLast (maxDate : Date) (st : LoopState) : Prop :=
  match currentDate st with
  | Some c =>
      wfDate (Some c) /\
      (date_le (Some c) maxDate = true ->
       exists l, dates st = (l ++ [Some (Day c * msPerDay)])%list)
  | None => True
  end.

(** A time value at least [b] days away from both ends of the range of
    time values. *)
Definition within (b t : Z) : Prop :=
  - maxTime + b * msPerDay <= t <= maxTime - b * msPerDay.

(** First day of the grid of the month with index [k]: the Sunday on or
    before the first of the month. *)
Definition gridFirst (k : Z) : Z := monthStart k - (monthStart k + 4) mod 7.

(** Last day of the grid: the Saturday on or after the last of the month. *)
Definition gridLast (k : Z) : Z :=
  monthStart (k + 1) - 1 + 6 - (monthStart (k + 1) - 1 + 4) mod 7.

(** [addLeadingZeros n 4] is four characters that read back as [n]. *)
Definition fourDigits_ok (n : Z) : bool :=
  match list_ascii_of_string (DateFormat.addLeadingZeros n 4) with
  | [a; b; c; d] =>
      match IsoFormat.num4 a b c d with
      | Some v => v =? n
      | None => false
      end
  | _ => false
  end.

Definition twoDigits_ok (n : Z) : bool :=
  match list_ascii_of_string (DateFormat.addLeadingZeros n 2) with
  | [a; b] =>
      match IsoFormat.num2 a b with
      | Some v => v =? n
      | None => false
      end
  | _ => false
  end.

End ProofDefs.

Import ProofDefs.

(** * Facts *)

(** ** Bounded checks *)

Lemma checkFrom_sound (P : Z -> bool) (n : nat) :
  forall z, checkFrom n z P = true ->
  forall x, z <= x < z + Z.of_nat n -> P x = true.
Proof.
  induction n as [|k IH]; intros z Hc x Hx.
  - simpl in Hx. lia.
  - cbn [checkFrom] in Hc. apply andb_true_iff in Hc as [Hz Hrest].
    destruct (Z.eq_dec x z) as [->|Hne]; [exact Hz|].
    apply (IH (z + 1)); [exact Hrest|lia].
Qed.

Lemma checkBelow_sound (P : Z -> bool) (n : Z) :
  checkBelow n P = true -> forall x, 0 <= x < n -> P x = true.
Proof.
  intros Hc x Hx. apply (checkFrom_sound P (Z.to_nat n) 0 Hc). lia.
Qed.

(** ** Calendar facts *)

Module CalendarFacts.
Import JSDate.

Example monthStart_1970_01 : monthStart (12 * 1970) = 0.
Proof. reflexivity. Qed.

Example monthStart_2024_03 : monthStart (12 * 2024 + 2) = 19783.
Proof. reflexivity. Qed.

Example february_lengths :
  (daysInMonth 2024 2, daysInMonth 2023 2, daysInMonth 1900 2,
   daysInMonth 2000 2) = (29, 28, 28, 29).
Proof. reflexivity. Qed.

(** The Gregorian calendar repeats every 400 years: 4800 months, 146097
    days. *)
Lemma monthStart_period (k e : Z) :
  monthStart (k + 4800 * e) = monthStart k + 146097 * e.
Proof.
  unfold monthStart.
  replace (k + 4800 * e - 2) with (k - 2 + (400 * e) * 12) by lia.
  rewrite Z.div_add by lia. rewrite Z.mod_add by lia.
  set (ys := (k - 2) / 12).
  replace (ys + 400 * e) with (ys + (100 * e) * 4) at 2 by lia.
  replace (ys + 400 * e) with (ys + (4 * e) * 100) at 2 by lia.
  replace (ys + 400 * e) with (ys + e * 400) at 2 by lia.
  rewrite !Z.div_add by lia. lia.
Qed.

(** The estimate used by [monthOfDay] is off by at most one month. *)
Lemma monthOfDay_estimate (d : Z) :
  let k := (4800 * (d + 719468)) / 146097 + 2 in
  monthStart (k - 1) <= d < monthStart (k + 2).
Proof.
  intros k. subst k. unfold monthStart.
  Z.div_mod_to_equations. lia.
Qed.

(** [monthOfDay d] is the month that contains day [d]. *)
Lemma monthOfDay_spec (d : Z) :
  monthStart (monthOfDay d) <= d < monthStart (monthOfDay d + 1).
Proof.
  pose proof (monthOfDay_estimate d) as He. cbv zeta in He.
  unfold monthOfDay.
  set (k := 4800 * (d + 719468) / 146097 + 2) in *.
  destruct (Z.ltb_spec d (monthStart k)) as [Hlt|Hge].
  - replace (k - 1 + 1) with k by lia. lia.
  - destruct (Z.leb_spec (monthStart (k + 1)) d) as [Hle|Hgt].
    + replace (k + 1 + 1) with (k + 2) by lia. lia.
    + lia.
Qed.

Lemma monthStart_ok_cycle : checkBelow 4800 monthStart_ok = true.
Proof. vm_compute. reflexivity. Qed.

Lemma monthStart_ok_all (k : Z) : monthStart_ok k = true.
Proof.
  assert (Hr : 0 <= k mod 4800 < 4800) by (apply Z.mod_pos_bound; lia).
  pose proof (checkBelow_sound _ _ monthStart_ok_cycle (k mod 4800) ltac:(lia))
    as Hok.
  assert (Hk : k = k mod 4800 + 4800 * (k / 4800)).
  { pose proof (Z.div_mod k 4800). lia. }
  unfold monthStart_ok in *.
  rewrite Hk.
  replace (k mod 4800 + 4800 * (k / 4800) + 1)
    with (k mod 4800 + 1 + 4800 * (k / 4800)) by lia.
  replace (k mod 4800 + 4800 * (k / 4800) + 12)
    with (k mod 4800 + 12 + 4800 * (k / 4800)) by lia.
  rewrite !monthStart_period.
  rewrite !andb_true_iff, !Z.leb_le in *. lia.
Qed.

Lemma isLeapYear_period (y e : Z) : isLeapYear (y + 400 * e) = isLeapYear y.
Proof.
  unfold isLeapYear.
  replace (y + 400 * e) with (y + (100 * e) * 4) at 1 by lia.
  replace (y + 400 * e) with (y + (4 * e) * 100) at 1 by lia.
  replace (y + 400 * e) with (y + e * 400) by lia.
  rewrite !Z.mod_add by lia. reflexivity.
Qed.

Lemma monthLength_ok_cycle : checkBelow 4800 monthLength_ok = true.
Proof. vm_compute. reflexivity. Qed.

(** The months delimited by [monthStart] have the lengths of the Gregorian
    calendar, leap years included. *)
Lemma daysInMonth_table (y m : Z) :
  1 <= m <= 12 -> daysInMonth y m = monthLength y m.
Proof.
  intros Hm. unfold daysInMonth.
  remember (12 * y + m - 1) as k eqn:Ek.
  remember (k mod 4800) as r eqn:Er.
  remember (k / 4800) as q eqn:Eq.
  assert (Hk : k = r + 4800 * q /\ 0 <= r < 4800).
  { subst r q. pose proof (Z.div_mod k 4800).
    pose proof (Z.mod_pos_bound k 4800). lia. }
  destruct Hk as [Hk Hr].
  pose proof (checkBelow_sound _ _ monthLength_ok_cycle r Hr) as Hok.
  unfold monthLength_ok in Hok. apply Z.eqb_eq in Hok.
  assert (Hq : r / 12 = y - 400 * q) by (Z.div_mod_to_equations; lia).
  assert (Hrm : r mod 12 + 1 = m) by (Z.div_mod_to_equations; lia).
  rewrite Hq, Hrm in Hok.
  replace (12 * y + m) with (r + 1 + 4800 * q) by lia.
  replace k with (r + 4800 * q) by lia.
  rewrite !monthStart_period.
  assert (Hlen : monthLength (y - 400 * q) m = monthLength y m).
  { unfold monthLength.
    replace (y - 400 * q) with (y + 400 * (- q)) by lia.
    rewrite isLeapYear_period. reflexivity. }
  lia.
Qed.

(** A month has between 28 and 31 days. *)
Lemma monthStart_step (k : Z) :
  28 <= monthStart (k + 1) - monthStart k <= 31.
Proof.
  pose proof (monthStart_ok_all k) as H. unfold monthStart_ok in H.
  rewrite !andb_true_iff, !Z.leb_le in H. lia.
Qed.

(** Twelve consecutive months have at most 366 days. *)
Lemma monthStart_year (k : Z) : monthStart (k + 12) - monthStart k <= 366.
Proof.
  pose proof (monthStart_ok_all k) as H. unfold monthStart_ok in H.
  rewrite !andb_true_iff, !Z.leb_le in H. lia.
Qed.

Lemma monthStart_add (k n : Z) :
  0 <= n -> monthStart k + 28 * n <= monthStart (k + n).
Proof.
  intros Hn.
  apply (natlike_ind (fun n => monthStart k + 28 * n <= monthStart (k + n)));
    [| |exact Hn].
  - replace (k + 0) with k by lia. lia.
  - intros m Hm IH.
    replace (k + Z.succ m) with (k + m + 1) by lia.
    pose proof (monthStart_step (k + m)). lia.
Qed.

Lemma monthStart_mono (j k : Z) : j <= k -> monthStart j <= monthStart k.
Proof.
  intros H. pose proof (monthStart_add j (k - j) ltac:(lia)) as Ha.
  replace (j + (k - j)) with k in Ha by lia. lia.
Qed.

(** The month containing a day is determined by the month boundaries. *)
Lemma monthOfDay_unique (d k : Z) :
  monthStart k <= d < monthStart (k + 1) -> monthOfDay d = k.
Proof.
  intros Hk. pose proof (monthOfDay_spec d) as Hs.
  destruct (Z_lt_le_dec (monthOfDay d) k) as [Hlt|Hge].
  - pose proof (monthStart_mono (monthOfDay d + 1) k ltac:(lia)). lia.
  - destruct (Z.eq_dec (monthOfDay d) k) as [|Hne]; [assumption|].
    pose proof (monthStart_mono (k + 1) (monthOfDay d) ltac:(lia)). lia.
Qed.

End CalendarFacts.

(** ** Facts about the Date operations *)

Module DateFacts.
Import JSDate CalendarFacts.

(** Linear arithmetic with the length of a day made explicit. *)
Ltac day_arith := unfold msPerDay in *; lia.

Lemma msPerDay_pos : 0 < msPerDay.
Proof. reflexivity. Qed.

Lemma time_split (t : Z) :
  t = MakeDate (Day t) (TimeWithinDay t) /\ 0 <= TimeWithinDay t < msPerDay.
Proof.
  unfold MakeDate, Day, TimeWithinDay. pose proof msPerDay_pos.
  split; [rewrite Z.mul_comm; apply Z.div_mod; lia|].
  apply Z.mod_pos_bound; lia.
Qed.

Lemma Day_MakeDate (d tw : Z) :
  0 <= tw < msPerDay -> Day (MakeDate d tw) = d.
Proof.
  intros H. unfold Day, MakeDate. pose proof msPerDay_pos.
  rewrite Z.add_comm, Z.div_add by lia. rewrite Z.div_small by lia. lia.
Qed.

Lemma TimeWithinDay_MakeDate (d tw : Z) :
  0 <= tw < msPerDay -> TimeWithinDay (MakeDate d tw) = tw.
Proof.
  intros H. unfold TimeWithinDay, MakeDate.
  rewrite Z.add_comm, Z.mod_add by (unfold msPerDay; lia).
  apply Z.mod_small; lia.
Qed.

Lemma Day_mono (a b : Z) : a <= b -> Day a <= Day b.
Proof. intros H. apply Z.div_le_mono; [reflexivity|exact H]. Qed.

Lemma TimeClip_Some (t u : Z) : TimeClip t = Some u -> u = t /\ wfDate (Some u).
Proof.
  unfold TimeClip, wfDate.
  destruct (Z.leb_spec (Z.abs t) maxTime); [|discriminate].
  intros [= <-]. lia.
Qed.

Lemma TimeClip_wf (t : Z) : wfDate (TimeClip t).
Proof.
  destruct (TimeClip t) as [u|] eqn:E; [|exact I].
  apply (TimeClip_Some _ _ E).
Qed.

Lemma TimeClip_in_range (t : Z) : - maxTime <= t <= maxTime -> TimeClip t = Some t.
Proof.
  intros H. unfold TimeClip.
  destruct (Z.leb_spec (Z.abs t) maxTime); [reflexivity|lia].
Qed.

(** The year and month fields recompose to the month index. *)
Lemma year_month (t : Z) :
  12 * YearFromTime t + MonthFromTime t = monthOfDay (Day t).
Proof.
  unfold YearFromTime, MonthFromTime.
  symmetry. apply Z.div_mod. lia.
Qed.

Lemma DateFromTime_range (t : Z) : 1 <= DateFromTime t <= 31.
Proof.
  unfold DateFromTime.
  pose proof (monthOfDay_spec (Day t)).
  pose proof (monthStart_step (monthOfDay (Day t))). lia.
Qed.

(** The calendar fields of the midnight built from a calendar date are that
    date. *)
Lemma civil_fields (y m d t : Z) :
  1 <= m <= 12 -> 1 <= d <= daysInMonth y m -> civil y m d = Some t ->
  YearFromTime t = y /\ MonthFromTime t = m - 1 /\ DateFromTime t = d.
Proof.
  intros Hm Hd H. unfold civil, MakeDay in H.
  apply TimeClip_Some in H as [-> _].
  unfold YearFromTime, MonthFromTime, DateFromTime.
  rewrite Day_MakeDate by (unfold msPerDay; lia).
  unfold daysInMonth in Hd.
  replace (12 * y + m) with (12 * y + (m - 1) + 1) in Hd by lia.
  replace (12 * y + (m - 1) + 1 - 1) with (12 * y + (m - 1)) in Hd by lia.
  rewrite (monthOfDay_unique _ (12 * y + (m - 1))) by lia.
  repeat split; [Z.div_mod_to_equations; lia|Z.div_mod_to_equations; lia|lia].
Qed.

(** *** startOfDay *)

Lemma startOfDay_Some (t : Z) :
  wfDate (Some t) -> startOfDay (Some t) = Some (Day t * msPerDay).
Proof.
  intros Hwf. cbn [startOfDay]. unfold setHoursZero, MakeDate.
  rewrite Z.add_0_r. apply TimeClip_in_range.
  cbn [wfDate] in Hwf.
  destruct (time_split t) as [Ht Htw]. unfold MakeDate in Ht.
  assert (Hlo : - maxTime = (-100000000) * msPerDay) by reflexivity.
  split; [|lia].
  rewrite Hlo. apply Z.mul_le_mono_nonneg_r; [unfold msPerDay; lia|].
  assert (Day (-100000000 * msPerDay) = -100000000) by reflexivity.
  pose proof (Day_mono (-100000000 * msPerDay) t ltac:(lia)). lia.
Qed.

Lemma startOfDay_le (t : Z) : Day t * msPerDay <= t.
Proof.
  destruct (time_split t) as [Ht Htw]. unfold MakeDate in Ht. lia.
Qed.

Lemma startOfDay_wf (d : Date) : wfDate (startOfDay d).
Proof.
  destruct d as [t|]; [|exact I]. cbn [startOfDay]. apply TimeClip_wf.
Qed.

(** Two valid dates are on the same day iff their day numbers agree. *)
Lemma isSameDay_Some (a b : Z) :
  wfDate (Some a) -> wfDate (Some b) ->
  isSameDay (Some a) (Some b) = (Day a =? Day b).
Proof.
  intros Ha Hb. unfold isSameDay.
  rewrite !startOfDay_Some by assumption.
  destruct (Z.eqb_spec (Day a) (Day b)) as [->|Hne].
  - apply Z.eqb_refl.
  - apply Z.eqb_neq. unfold msPerDay. lia.
Qed.

(** *** addDays *)

Lemma addDays_eq (t n : Z) :
  n <> 0 -> addDays (Some t) n = TimeClip (t + n * msPerDay).
Proof.
  intros Hn. cbn [addDays]. apply Z.eqb_neq in Hn. rewrite Hn.
  unfold setDate, MakeDay. rewrite year_month. unfold DateFromTime.
  f_equal. destruct (time_split t) as [Ht _]. unfold MakeDate in *. lia.
Qed.

Lemma addDays_wf (d : Date) (n : Z) : wfDate d -> wfDate (addDays d n).
Proof.
  intros Hwf. destruct d as [t|]; [|exact I].
  destruct (Z.eq_dec n 0) as [->|Hn]; [exact Hwf|].
  rewrite addDays_eq by assumption. apply TimeClip_wf.
Qed.

(** *** addMonths *)

(** [addMonths] for a non-zero amount, with the Date methods unfolded. *)
Lemma addMonths_unfold (t n : Z) :
  n <> 0 ->
  addMonths (Some t) n =
  match TimeClip (MakeDate (monthStart (monthOfDay (Day t) + n + 1) - 1)
                           (TimeWithinDay t)) with
  | None => None
  | Some e =>
      if DateFromTime t >=? DateFromTime e then Some e
      else TimeClip (MakeDate (monthStart (monthOfDay (Day e))
                                + DateFromTime t - 1) (TimeWithinDay t))
  end.
Proof.
  intros Hn. unfold addMonths.
  apply Z.eqb_neq in Hn. rewrite Hn.
  unfold setMonth, setFullYear, MakeDay.
  replace (12 * YearFromTime t + (MonthFromTime t + n + 1))
    with (monthOfDay (Day t) + n + 1) by (pose proof (year_month t); lia).
  replace (monthStart (monthOfDay (Day t) + n + 1) + 0 - 1)
    with (monthStart (monthOfDay (Day t) + n + 1) - 1) by lia.
  destruct (TimeClip _) as [e|]; [|reflexivity].
  rewrite year_month. reflexivity.
Qed.

(** The result of [addMonths] lies in month [k + n] (where [k] is the month
    of the argument), on the same day of the month or on an earlier one,
    at the same time of day. *)
Lemma addMonths_Some (t n u : Z) :
  n <> 0 -> addMonths (Some t) n = Some u ->
  let k := monthOfDay (Day t) in
  TimeWithinDay u = TimeWithinDay t /\
  monthStart (k + n) <= Day u < monthStart (k + n + 1) /\
  Day u <= monthStart (k + n) + DateFromTime t - 1 /\
  wfDate (Some u).
Proof.
  intros Hn H k. rewrite addMonths_unfold in H by assumption.
  fold k in H.
  destruct (time_split t) as [_ Htw].
  pose proof (DateFromTime_range t) as HD.
  pose proof (monthStart_step (k + n)) as Hstep.
  destruct (TimeClip _) as [e|] eqn:He in H; [|discriminate].
  apply TimeClip_Some in He as [-> Hewf].
  remember (MakeDate (monthStart (k + n + 1) - 1) (TimeWithinDay t)) as e eqn:Ee.
  assert (HDe : Day e = monthStart (k + n + 1) - 1).
  { rewrite Ee. apply Day_MakeDate. assumption. }
  assert (HTe : TimeWithinDay e = TimeWithinDay t).
  { rewrite Ee. apply TimeWithinDay_MakeDate. assumption. }
  assert (Hke : monthOfDay (Day e) = k + n).
  { apply monthOfDay_unique. rewrite HDe. lia. }
  assert (HDFe : DateFromTime e = monthStart (k + n + 1) - monthStart (k + n)).
  { unfold DateFromTime. rewrite Hke, HDe. lia. }
  rewrite HDFe, Hke in H.
  destruct (Z.geb_spec (DateFromTime t)
              (monthStart (k + n + 1) - monthStart (k + n))) as [Hge|Hlt].
  - injection H as <-.
    repeat split; try assumption; try lia; apply Hewf.
  - apply TimeClip_Some in H as [-> Huwf].
    rewrite Day_MakeDate, TimeWithinDay_MakeDate by assumption.
    repeat split; try assumption; try lia; apply Huwf.
Qed.

(** Adding at least one month moves a date forward by at least a day. *)
Lemma addMonths_forward (t n u : Z) :
  1 <= n -> addMonths (Some t) n = Some u -> t + msPerDay <= u.
Proof.
  intros Hn H. apply addMonths_Some in H; [|lia].
  cbv zeta in H. destruct H as (Htw & [Hlo _] & _ & _).
  pose proof (monthOfDay_spec (Day t)) as Hs.
  pose proof (monthStart_mono (monthOfDay (Day t) + 1)
                (monthOfDay (Day t) + n) ltac:(lia)) as Hm.
  destruct (time_split t) as [Ht _]. destruct (time_split u) as [Hu _].
  unfold MakeDate in *. rewrite Htw in Hu. day_arith.
Qed.

(** Adding twelve months moves a date forward by at most 366 days. *)
Lemma addMonths_12_bound (t u : Z) :
  addMonths (Some t) 12 = Some u -> u <= t + 366 * msPerDay.
Proof.
  intros H. apply addMonths_Some in H; [|lia].
  cbv zeta in H. destruct H as (Htw & _ & Hhi & _).
  pose proof (monthStart_year (monthOfDay (Day t))) as Hy.
  unfold DateFromTime in Hhi.
  destruct (time_split t) as [Ht _]. destruct (time_split u) as [Hu _].
  unfold MakeDate in *. rewrite Htw in Hu. day_arith.
Qed.

Lemma addMonths_wf (d : Date) (n : Z) : wfDate d -> wfDate (addMonths d n).
Proof.
  intros Hwf. destruct d as [t|]; [|exact I].
  destruct (Z.eq_dec n 0) as [->|Hn]; [exact Hwf|].
  destruct (addMonths (Some t) n) as [u|] eqn:E; [|exact I].
  apply addMonths_Some in E; [|assumption]. apply E.
Qed.

End DateFacts.

(** ** Facts about the expansion loop *)

Module RecurrenceFacts.
Import JSDate CalendarFacts DateFacts DateUtils.
Open Scope string_scope.
Open Scope Z_scope.

Lemma before_irrefl (a : Date) : ~ before a a.
Proof.
  unfold before. destruct a as [x|]; cbn [date_lt]; [|discriminate].
  rewrite Z.ltb_irrefl. discriminate.
Qed.

Lemma StronglySorted_snoc {A} (R : A -> A -> Prop) (l : list A) (y : A) :
  StronglySorted R l -> Forall (fun x => R x y) l ->
  StronglySorted R (l ++ [y]).
Proof.
  induction 1 as [|a l Hl IH Ha]; intros Hy; cbn [app].
  - constructor; constructor.
  - inversion Hy as [|? ? Hay Hly]; subst.
    constructor; [apply IH; assumption|].
    apply Forall_app. split; [assumption|]. constructor; [assumption|constructor].
Qed.

Lemma StronglySorted_NoDup {A} (R : A -> A -> Prop) (l : list A) :
  (forall x, ~ R x x) -> StronglySorted R l -> NoDup l.
Proof.
  intros Hirr. induction 1 as [|a l Hl IH Ha]; constructor; [|assumption].
  intros Hin. rewrite Forall_forall in Ha. exact (Hirr a (Ha a Hin)).
Qed.

Lemma safeInterval_range (interval : Z) : 1 <= safeInterval interval <= 365.
Proof. unfold safeInterval. destruct (interval =? 0); lia. Qed.

Lemma safeInterval_clamped (interval : Z) :
  1 <= interval <= 365 -> safeInterval interval = interval.
Proof.
  intros H. unfold safeInterval.
  destruct (Z.eqb_spec interval 0); lia.
Qed.

Lemma addDays_forward (t n : Z) : 1 <= n -> forwardOf t (addDays (Some t) n).
Proof.
  intros Hn. rewrite addDays_eq by lia. unfold forwardOf.
  destruct (TimeClip _) as [u|] eqn:E; [|exact I].
  apply TimeClip_Some in E as [-> Hwf]. split; [|exact Hwf].
  unfold msPerDay. lia.
Qed.

Lemma addMonths_forwardOf (t n : Z) :
  1 <= n -> forwardOf t (addMonths (Some t) n).
Proof.
  intros Hn. unfold forwardOf.
  destruct (addMonths (Some t) n) as [u|] eqn:E; [|exact I].
  split; [exact (addMonths_forward _ _ _ Hn E)|].
  apply addMonths_Some in E; [apply E|lia].
Qed.

(** One step of a known pattern moves a valid cursor at least one day
    forward, or out of the range of time values. *)
Lemma advance_forward (pattern : string) (si t : Z) (next : Date) :
  1 <= si -> advance pattern si (Some t) = Some next -> forwardOf t next.
Proof.
  intros Hsi. unfold advance, addWeeks.
  destruct (String.eqb pattern "daily");
    [|destruct (String.eqb pattern "weekly");
      [|destruct (String.eqb pattern "monthly"); [|discriminate]]];
    intros H;
    match type of H with
    | Some ?d = Some _ => assert (Hd : d = next) by congruence
    end; rewrite <- Hd.
  - apply addDays_forward; lia.
  - apply addDays_forward; lia.
  - apply addMonths_forwardOf; lia.
Qed.

Lemma advance_unknown (pattern : string) (si : Z) (d : Date) :
  knownPattern pattern = false -> advance pattern si d = None.
Proof.
  unfold knownPattern, advance. intros H.
  apply orb_false_iff in H as [H Hm]. apply orb_false_iff in H as [Hd Hw].
  rewrite Hd, Hw, Hm. reflexivity.
Qed.

Lemma advance_known (pattern : string) (si : Z) (d : Date) :
  knownPattern pattern = true -> advance pattern si d <> None.
Proof.
  unfold knownPattern, advance. intros H.
  destruct (String.eqb pattern "daily"); [discriminate|].
  destruct (String.eqb pattern "weekly"); [discriminate|].
  destruct (String.eqb pattern "monthly"); [discriminate|].
  discriminate.
Qed.

Section Loop.
Variable pattern : string.
Variable si : Z.
Variable maxDate : Date.
Hypothesis si_pos : 1 <= si.

Local Abbreviation loop fuel st := (whileLoop fuel pattern si maxDate st).

(** The loop does nothing once the cursor is invalid or the counter has
    reached the ceiling. *)
Lemma whileLoop_stop (fuel : nat) (st : LoopState) :
  date_lt (currentDate st) maxDate && (iterations st <? maxIterations) = false ->
  loop fuel st = st.
Proof. intros H. destruct fuel; cbn [whileLoop]; rewrite H; reflexivity. Qed.

(** One unfolding of the loop, for a state in which the condition holds. *)
Lemma whileLoop_step (fuel : nat) (st : LoopState) :
  date_lt (currentDate st) maxDate && (iterations st <? maxIterations) = true ->
  loop (S fuel) st =
  match advance pattern si (currentDate st) with
  | None => mkLoop (dates st) (currentDate st) (iterations st + 1)
  | Some next =>
      loop fuel (mkLoop (if date_le next maxDate
                         then dates st ++ [startOfDay next]
                         else dates st)
                        next (iterations st + 1))
  end.
Proof. intros H. cbn [whileLoop]. rewrite H. reflexivity. Qed.

(** Induction principle that follows the iterations of the loop: [P]
    relates a state to the state in which the loop stops. *)
Lemma whileLoop_ind (Inv : LoopState -> Prop) (P : LoopState -> LoopState -> Prop) :
  (forall st, Inv st -> P st st) ->
  (forall st, Inv st ->
     date_lt (currentDate st) maxDate && (iterations st <? maxIterations) = true ->
     advance pattern si (currentDate st) = None ->
     P st (mkLoop (dates st) (currentDate st) (iterations st + 1))) ->
  (forall st next, Inv st ->
     date_lt (currentDate st) maxDate && (iterations st <? maxIterations) = true ->
     advance pattern si (currentDate st) = Some next ->
     let st' := mkLoop (if date_le next maxDate
                        then dates st ++ [startOfDay next]
                        else dates st)
                       next (iterations st + 1) in
     Inv st' /\ (forall fin, P st' fin -> P st fin)) ->
  forall fuel st, Inv st -> P st (loop fuel st).
Proof.
  intros Hstop Hret Hstep. induction fuel as [|fuel IH]; intros st Hinv.
  - cbn [whileLoop]. destruct (_ && _); apply Hstop; assumption.
  - destruct (date_lt (currentDate st) maxDate && (iterations st <? maxIterations))
      eqn:Hc.
    + rewrite whileLoop_step by assumption.
      destruct (advance pattern si (currentDate st)) as [next|] eqn:Ha.
      * destruct (Hstep st next Hinv Hc Ha) as [Hinv' Hp].
        apply Hp. apply IH. exact Hinv'.
      * apply Hret; assumption.
    + rewrite whileLoop_stop by assumption. apply Hstop; assumption.
Qed.

(** *** The counter, not the fuel, ends the loop *)

Lemma whileLoop_fuel (fuel : nat) :
  forall st, maxIterations - iterations st <= Z.of_nat fuel ->
  loop (S fuel) st = loop fuel st.
Proof.
  induction fuel as [|fuel IH]; intros st Hf.
  - assert (Hc : continues maxDate st = false).
    { unfold continues. apply andb_false_iff. right. apply Z.ltb_ge.
      lia. }
    rewrite !whileLoop_stop by exact Hc. reflexivity.
  - destruct (continues maxDate st) eqn:Hc.
    + rewrite (whileLoop_step (S fuel)), (whileLoop_step fuel) by exact Hc.
      destruct (advance pattern si (currentDate st)); [|reflexivity].
      apply IH. cbn [iterations]. lia.
    + rewrite !whileLoop_stop by exact Hc. reflexivity.
Qed.

Lemma whileLoop_more_fuel (fuel extra : nat) (st : LoopState) :
  maxIterations - iterations st <= Z.of_nat fuel ->
  loop (extra + fuel) st = loop fuel st.
Proof.
  intros Hf. induction extra as [|extra IH]; [reflexivity|].
  cbn [Nat.add]. rewrite whileLoop_fuel by lia. exact IH.
Qed.

(** With enough fuel the loop stops because its condition fails or
    because the [default] branch returns. *)
Lemma whileLoop_exit (fuel : nat) :
  forall st, maxIterations - iterations st <= Z.of_nat fuel ->
  continues maxDate (loop fuel st) = false \/
  advance pattern si (currentDate (loop fuel st)) = None.
Proof.
  induction fuel as [|fuel IH]; intros st Hf.
  - assert (Hc : continues maxDate st = false).
    { unfold continues. apply andb_false_iff. right. apply Z.ltb_ge.
      lia. }
    rewrite whileLoop_stop by exact Hc. left. exact Hc.
  - destruct (continues maxDate st) eqn:Hc.
    + rewrite whileLoop_step by exact Hc.
      destruct (advance pattern si (currentDate st)) eqn:Ha.
      * apply IH. cbn [iterations]. lia.
      * right. exact Ha.
    + rewrite whileLoop_stop by exact Hc. left. exact Hc.
Qed.

(** *** Counting iterations and elements *)

Lemma whileLoop_count (fuel : nat) (st : LoopState) :
  iterations st <= maxIterations ->
  iterations st <= iterations (loop fuel st) <= maxIterations /\
  Z.of_nat (List.length (dates (loop fuel st))) - Z.of_nat (List.length (dates st))
    <= iterations (loop fuel st) - iterations st.
Proof.
  apply (whileLoop_ind
    (fun st => iterations st <= maxIterations)
    (fun st fin =>
       iterations st <= iterations fin <= maxIterations /\
       Z.of_nat (List.length (dates fin)) - Z.of_nat (List.length (dates st))
         <= iterations fin - iterations st)).
  - intros s Hs. lia.
  - intros s Hs Hc _. apply andb_true_iff in Hc as [_ Hc].
    apply Z.ltb_lt in Hc. cbn [dates iterations]. lia.
  - intros s next Hs Hc _ s'. apply andb_true_iff in Hc as [_ Hc].
    apply Z.ltb_lt in Hc. subst s'. cbn [dates iterations]. split; [lia|].
    intros fin [Hit Hlen]. split; [lia|].
    destruct (date_le next maxDate); [|lia].
    rewrite length_app in Hlen. cbn [List.length] in Hlen. lia.
Qed.

(** *** An unknown pattern appends nothing *)

Lemma whileLoop_unknown (fuel : nat) (st : LoopState) :
  knownPattern pattern = false -> dates (loop fuel st) = dates st.
Proof.
  intros Hp. destruct fuel as [|fuel]; cbn [whileLoop].
  - destruct (_ && _); reflexivity.
  - rewrite advance_unknown by exact Hp. destruct (_ && _); reflexivity.
Qed.

(** *** Elements stay below the horizon *)

Lemma whileLoop_horizon (fuel : nat) (st : LoopState) :
  wfDate (currentDate st) ->
  Forall (fun d => date_le d maxDate = true) (dates st) ->
  Forall (fun d => date_le d maxDate = true) (dates (loop fuel st)).
Proof.
  intros Hwf Hall. generalize (conj Hwf Hall). clear Hwf Hall.
  revert fuel st.
  apply (whileLoop_ind
    (fun st => wfDate (currentDate st) /\
               Forall (fun d => date_le d maxDate = true) (dates st))
    (fun _ fin => Forall (fun d => date_le d maxDate = true) (dates fin))).
  - intros s [_ Hs]. exact Hs.
  - intros s [_ Hs] _ _. exact Hs.
  - intros s next [Hw Hs] Hc Ha s'. subst s'. cbn [dates currentDate].
    apply andb_true_iff in Hc as [Hlt _].
    destruct (currentDate s) as [t|] eqn:Ecur; [|discriminate].
    pose proof (advance_forward _ _ _ _ si_pos Ha) as Hf.
    split; [|intros fin Hfin; exact Hfin].
    destruct next as [u|]; [|split; [exact I|exact Hs]].
    destruct Hf as [_ Hu]. split; [exact Hu|].
    destruct (date_le (Some u) maxDate) eqn:Hle; [|exact Hs].
    apply Forall_app. split; [exact Hs|]. constructor; [|constructor].
    rewrite startOfDay_Some by exact Hu.
    destruct maxDate as [m|]; [|discriminate].
    cbn [date_le] in *. apply Z.leb_le in Hle. apply Z.leb_le.
    pose proof (startOfDay_le u). lia.
Qed.

(** *** Elements are appended in strictly increasing order *)

Lemma whileLoop_sorted (fuel : nat) (st : LoopState) :
  StronglySorted before (dates st) -> behindCursor st ->
  StronglySorted before (dates (loop fuel st)) /\
  exists tail, dates (loop fuel st) = (dates st ++ tail)%list.
Proof.
  intros Hs Hb. generalize (conj Hs Hb). clear Hs Hb.
  revert fuel st.
  apply (whileLoop_ind
    (fun st => StronglySorted before (dates st) /\ behindCursor st)
    (fun st fin => StronglySorted before (dates fin) /\
                   exists tail, dates fin = (dates st ++ tail)%list)).
  - intros s [Hs _]. split; [exact Hs|]. exists []. symmetry. apply app_nil_r.
  - intros s [Hs _] _ _. split; [exact Hs|]. exists []. symmetry. apply app_nil_r.
  - intros s next [Hs Hb] Hc Ha s'. subst s'. cbn [dates currentDate].
    apply andb_true_iff in Hc as [Hlt _].
    unfold behindCursor in Hb |- *. cbn [dates currentDate].
    destruct (currentDate s) as [t|] eqn:Ecur; [|discriminate].
    destruct Hb as [Ht Hall].
    pose proof (advance_forward _ _ _ _ si_pos Ha) as Hf.
    destruct next as [u|].
    + destruct Hf as [Htu Hu].
      assert (Hday : Day t + 1 <= Day u).
      { pose proof (Day_mono _ _ Htu) as Hm.
        replace (t + msPerDay) with (MakeDate (Day t + 1) (TimeWithinDay t)) in Hm.
        - rewrite Day_MakeDate in Hm by apply time_split. exact Hm.
        - destruct (time_split t) as [E _]. unfold MakeDate in *. lia. }
      destruct (date_le (Some u) maxDate).
      * rewrite startOfDay_Some by exact Hu.
        split; [split; [|split; [exact Hu|]]|].
        -- apply StronglySorted_snoc; [exact Hs|].
           eapply Forall_impl; [|exact Hall].
           intros d (x & -> & Hx). unfold before. cbn [date_lt].
           apply Z.ltb_lt. day_arith.
        -- apply Forall_app. split.
           ++ eapply Forall_impl; [|exact Hall].
              intros d (x & -> & Hx). exists x. split; [reflexivity|].
              day_arith.
           ++ constructor; [|constructor]. eexists. split; [reflexivity|lia].
        -- intros fin [Hfin [tail Htail]]. split; [exact Hfin|].
           exists (Some (Day u * msPerDay) :: tail).
           rewrite Htail, <- app_assoc. reflexivity.
      * split; [split; [exact Hs|split; [exact Hu|]]|].
        -- eapply Forall_impl; [|exact Hall].
           intros d (x & -> & Hx). exists x. split; [reflexivity|].
           day_arith.
        -- intros fin Hfin. exact Hfin.
    + cbn [date_le]. split; [split; [exact Hs|exact I]|].
      intros fin Hfin. exact Hfin.
Qed.

(** *** A horizon within 366 days is passed within 366 iterations *)

Lemma whileLoop_within_year (t0 m : Z) (fuel : nat) (st : LoopState) :
  maxDate = Some m -> m <= t0 + 366 * msPerDay ->
  iterations st <= 366 ->
  match currentDate st with
  | Some t => t0 + iterations st * msPerDay <= t
  | None => True
  end ->
  iterations (loop fuel st) <= 366.
Proof.
  intros Hm Hbound Hit Hcur. generalize (conj Hit Hcur). clear Hit Hcur.
  revert fuel st.
  apply (whileLoop_ind
    (fun st => iterations st <= 366 /\
               match currentDate st with
               | Some t => t0 + iterations st * msPerDay <= t
               | None => True
               end)
    (fun _ fin => iterations fin <= 366)).
  - intros s [Hs _]. exact Hs.
  - intros s [Hs Hcs] Hc _. cbn [iterations].
    apply andb_true_iff in Hc as [Hlt _]. rewrite Hm in Hlt.
    destruct (currentDate s) as [t|]; [|discriminate].
    cbn [date_lt] in Hlt. apply Z.ltb_lt in Hlt. day_arith.
  - intros s next [Hs Hcs] Hc Ha s'. subst s'. cbn [iterations currentDate].
    apply andb_true_iff in Hc as [Hlt _]. rewrite Hm in Hlt.
    destruct (currentDate s) as [t|] eqn:Ecur; [|discriminate].
    cbn [date_lt] in Hlt. apply Z.ltb_lt in Hlt.
    pose proof (advance_forward _ _ _ _ si_pos Ha) as Hf.
    split; [|intros fin Hfin; exact Hfin].
    split; [day_arith|].
    destruct next as [u|]; [|exact I].
    destruct Hf as [Htu _]. day_arith.
Qed.

End Loop.

End RecurrenceFacts.

(** * Properties of the recurrence expander *)

Import JSDate CalendarFacts DateFacts DateUtils RecurrenceFacts.
Open Scope string_scope.
Open Scope Z_scope.

Lemma runRecurrence_eq (startDate : Date) (pattern : string) (interval : Z)
    (endDate : option Date) :
  runRecurrence startDate pattern interval endDate =
  whileLoop (Z.to_nat maxIterations) pattern (safeInterval interval)
    (effectiveMaxDate startDate endDate) (initialState startDate).
Proof. reflexivity. Qed.

Lemma generateRecurringDates_valid (t : Z) (pattern : string) (interval : Z)
    (endDate : option Date) :
  generateRecurringDates (Some t) pattern interval endDate =
  dates (runRecurrence (Some t) pattern interval endDate).
Proof. reflexivity. Qed.

Lemma generateRecurringDates_invalid (pattern : string) (interval : Z)
    (endDate : option Date) :
  generateRecurringDates None pattern interval endDate = [].
Proof. reflexivity. Qed.

Lemma safeInterval_pos (interval : Z) : 1 <= safeInterval interval.
Proof. apply safeInterval_range. Qed.

(** The default horizon lies between one day and 366 days after the
    anchor. *)
Lemma addYears_1 (t m : Z) :
  addYears (Some t) 1 = Some m -> t + msPerDay <= m <= t + 366 * msPerDay.
Proof.
  unfold addYears. change (1 * 12) with 12. intros H. split.
  - apply (addMonths_forward t 12 m); [lia|exact H].
  - apply addMonths_12_bound. exact H.
Qed.

Lemma midnight_le_horizon (t : Z) (maxDate : Date) :
  wfDate (Some t) -> date_le (Some t) maxDate = true ->
  date_le (startOfDay (Some t)) maxDate = true.
Proof.
  intros Hwf Hle. rewrite startOfDay_Some by exact Hwf.
  destruct maxDate as [m|]; [|discriminate].
  unfold date_le in *. apply Z.leb_le in Hle. apply Z.leb_le.
  pose proof (startOfDay_le t). lia.
Qed.

(** C3 (amended).  Every element of the sequence returned by
    [generateRecurringDates] is at or before the effective horizon whenever
    the anchor itself is at or before it.  This is the case for the default
    horizon of one year after the anchor, as soon as that date is
    representable.  (The anchor is always the first element, also when a
    caller passes a horizon that precedes it.) *)
Theorem generateRecurringDates_horizon (startDate : Date) (pattern : string)
    (interval : Z) (endDate : option Date) :
  wfDate startDate ->
  (date_le startDate (effectiveMaxDate startDate endDate) = true ->
   Forall (fun d => date_le d (effectiveMaxDate startDate endDate) = true)
          (generateRecurringDates startDate pattern interval endDate))
  /\
  (isValid (addYears startDate 1) = true ->
   Forall (fun d => date_le d (addYears startDate 1) = true)
          (generateRecurringDates startDate pattern interval None)).
Proof.
  intros Hwf.
  assert (Hgen : forall e,
    date_le startDate (effectiveMaxDate startDate e) = true ->
    Forall (fun d => date_le d (effectiveMaxDate startDate e) = true)
           (generateRecurringDates startDate pattern interval e)).
  { intros e Hle. destruct startDate as [t|]; [|constructor].
    rewrite generateRecurringDates_valid, runRecurrence_eq.
    apply whileLoop_horizon.
    - apply safeInterval_pos.
    - exact Hwf.
    - constructor; [|constructor]. apply midnight_le_horizon; assumption. }
  split; [apply Hgen|].
  intros Hv. apply (Hgen None). unfold effectiveMaxDate.
  destruct startDate as [t|]; [|discriminate].
  destruct (addYears (Some t) 1) as [m|] eqn:E; [|discriminate].
  apply addYears_1 in E. unfold date_le. apply Z.leb_le.
  unfold msPerDay in E. lia.
Qed.

(** Witness for C3: a fortnightly event anchored on 2024-01-01, with a
    horizon of 2024-03-01 and with the default horizon. *)
Lemma generateRecurringDates_horizon_witness :
  wfDate (civil 2024 1 1) /\
  date_le (civil 2024 1 1)
    (effectiveMaxDate (civil 2024 1 1) (Some (civil 2024 3 1))) = true /\
  isValid (addYears (civil 2024 1 1) 1) = true /\
  Forall (fun d => date_le d (effectiveMaxDate (civil 2024 1 1)
                                (Some (civil 2024 3 1))) = true)
         (generateRecurringDates (civil 2024 1 1) "weekly" 2
            (Some (civil 2024 3 1))) /\
  Forall (fun d => date_le d (addYears (civil 2024 1 1) 1) = true)
         (generateRecurringDates (civil 2024 1 1) "weekly" 2 None).
Proof.
  assert (Hwf : wfDate (civil 2024 1 1)) by (vm_compute; split; discriminate).
  assert (Hle : date_le (civil 2024 1 1)
                  (effectiveMaxDate (civil 2024 1 1) (Some (civil 2024 3 1)))
                = true) by (vm_compute; reflexivity).
  assert (Hv : isValid (addYears (civil 2024 1 1) 1) = true)
    by (vm_compute; reflexivity).
  destruct (generateRecurringDates_horizon (civil 2024 1 1) "weekly" 2
              (Some (civil 2024 3 1)) Hwf) as [Hgiven Hdefault].
  split; [exact Hwf|]. split; [exact Hle|]. split; [exact Hv|].
  split; [exact (Hgiven Hle)|exact (Hdefault Hv)].
Defined.

(** Counterexample to C3 as stated: with a horizon of 2024-01-01 and an
    anchor of 2024-01-10, the anchor is returned although it lies after the
    horizon. *)
Lemma generateRecurringDates_horizon_counterexample :
  generateRecurringDates (civil 2024 1 10) "daily" 1 (Some (civil 2024 1 1))
    = [civil 2024 1 10] /\
  isValid (civil 2024 1 1) = true /\
  ~ Forall (fun d => date_le d (effectiveMaxDate (civil 2024 1 10)
                                  (Some (civil 2024 1 1))) = true)
      (generateRecurringDates (civil 2024 1 10) "daily" 1
         (Some (civil 2024 1 1))).
Proof.
  assert (E : generateRecurringDates (civil 2024 1 10) "daily" 1
                (Some (civil 2024 1 1)) = [civil 2024 1 10])
    by (vm_compute; reflexivity).
  split; [exact E|]. split; [vm_compute; reflexivity|].
  rewrite E. intros H. inversion H as [|? ? Hd _].
  vm_compute in Hd. discriminate Hd.
Qed.

(** C4.  For a valid anchor the returned sequence is strictly increasing,
    has no repeated date, is not empty, and starts with the anchor
    normalized to midnight; this holds for every pattern, interval and
    horizon. *)
Theorem generateRecurringDates_increasing (startDate : Date) (pattern : string)
    (interval : Z) (endDate : option Date) :
  isValid startDate = true -> wfDate startDate ->
  let result := generateRecurringDates startDate pattern interval endDate in
  StronglySorted (fun a b => date_lt a b = true) result /\
  NoDup result /\
  result <> [] /\
  hd_error result = Some (startOfDay startDate) /\
  isValid (startOfDay startDate) = true.
Proof.
  intros Hv Hwf result. subst result.
  destruct startDate as [t|]; [|discriminate].
  rewrite generateRecurringDates_valid, runRecurrence_eq.
  destruct (whileLoop_sorted pattern (safeInterval interval)
              (effectiveMaxDate (Some t) endDate) (safeInterval_pos interval)
              (Z.to_nat maxIterations) (initialState (Some t)))
    as [Hsorted [tail Htail]].
  - unfold initialState. cbn [dates]. constructor; constructor.
  - unfold behindCursor, initialState. cbn [dates currentDate].
    split; [exact Hwf|]. constructor; [|constructor].
    rewrite startOfDay_Some by exact Hwf. eexists. split; [reflexivity|lia].
  - split; [exact Hsorted|].
    split; [exact (StronglySorted_NoDup _ _ before_irrefl Hsorted)|].
    rewrite Htail. unfold initialState. cbn [dates app hd_error].
    split; [discriminate|]. split; [reflexivity|].
    rewrite startOfDay_Some by exact Hwf. reflexivity.
Qed.

(** Witness for C4: monthly recurrence from 2024-01-31, where the cursor is
    clamped to the end of February. *)
Lemma generateRecurringDates_increasing_witness :
  isValid (civil 2024 1 31) = true /\
  wfDate (civil 2024 1 31) /\
  StronglySorted (fun a b => date_lt a b = true)
    (generateRecurringDates (civil 2024 1 31) "monthly" 1 None).
Proof.
  assert (Hv : isValid (civil 2024 1 31) = true) by (vm_compute; reflexivity).
  assert (Hwf : wfDate (civil 2024 1 31)) by (vm_compute; split; discriminate).
  split; [exact Hv|]. split; [exact Hwf|].
  exact (proj1 (generateRecurringDates_increasing (civil 2024 1 31) "monthly" 1
                  None Hv Hwf)).
Defined.

(** C7.  Clamping of the interval: interval 0 expands like interval 1 and
    interval 10000 like interval 365, for the daily pattern and any anchor
    and horizon; more generally every interval below 1 behaves as 1 and
    every interval above 365 as 365, for every pattern. *)
Theorem generateRecurringDates_interval_clamped (startDate : Date)
    (endDate : option Date) :
  generateRecurringDates startDate "daily" 0 endDate
    = generateRecurringDates startDate "daily" 1 endDate /\
  generateRecurringDates startDate "daily" 10000 endDate
    = generateRecurringDates startDate "daily" 365 endDate /\
  (forall pattern interval, interval <= 0 ->
     generateRecurringDates startDate pattern interval endDate
       = generateRecurringDates startDate pattern 1 endDate) /\
  (forall pattern interval, 365 <= interval ->
     generateRecurringDates startDate pattern interval endDate
       = generateRecurringDates startDate pattern 365 endDate).
Proof.
  assert (Hsafe : forall pattern i j, safeInterval i = safeInterval j ->
    generateRecurringDates startDate pattern i endDate
      = generateRecurringDates startDate pattern j endDate).
  { intros pattern i j E. unfold generateRecurringDates.
    rewrite !runRecurrence_eq, E. reflexivity. }
  split; [|split; [|split]].
  - apply Hsafe. reflexivity.
  - apply Hsafe. reflexivity.
  - intros pattern interval Hi. apply Hsafe.
    unfold safeInterval. destruct (Z.eqb_spec interval 0); simpl; lia.
  - intros pattern interval Hi. apply Hsafe.
    unfold safeInterval. destruct (Z.eqb_spec interval 0); simpl; lia.
Qed.

(** Witness for C7: a negative interval and one above the range. *)
Lemma generateRecurringDates_interval_clamped_witness :
  -5 <= 0 /\ 365 <= 400 /\
  generateRecurringDates (civil 2024 1 1) "weekly" (-5) None
    = generateRecurringDates (civil 2024 1 1) "weekly" 1 None /\
  generateRecurringDates (civil 2024 1 1) "weekly" 400 None
    = generateRecurringDates (civil 2024 1 1) "weekly" 365 None.
Proof.
  assert (H1 : -5 <= 0) by lia. assert (H2 : 365 <= 400) by lia.
  destruct (generateRecurringDates_interval_clamped (civil 2024 1 1) None)
    as (_ & _ & Hlow & Hhigh).
  split; [exact H1|]. split; [exact H2|].
  split; [exact (Hlow "weekly" (-5) H1)|exact (Hhigh "weekly" 400 H2)].
Defined.

Lemma knownPattern_false (pattern : string) :
  pattern <> "daily" -> pattern <> "weekly" -> pattern <> "monthly" ->
  knownPattern pattern = false.
Proof.
  intros Hd Hw Hm. unfold knownPattern.
  apply String.eqb_neq in Hd, Hw, Hm. rewrite Hd, Hw, Hm. reflexivity.
Qed.

(** C8.  For a valid anchor and a pattern other than daily, weekly and
    monthly, the result is the one-element sequence holding the anchor
    normalized to midnight, for every interval and horizon. *)
Theorem generateRecurringDates_unknown_pattern (startDate : Date)
    (pattern : string) (interval : Z) (endDate : option Date) :
  isValid startDate = true ->
  pattern <> "daily" -> pattern <> "weekly" -> pattern <> "monthly" ->
  generateRecurringDates startDate pattern interval endDate
    = [startOfDay startDate].
Proof.
  intros Hv Hd Hw Hm. destruct startDate as [t|]; [|discriminate].
  rewrite generateRecurringDates_valid, runRecurrence_eq.
  rewrite whileLoop_unknown by (apply knownPattern_false; assumption).
  reflexivity.
Qed.

(** Witness for C8: [expand(d, 'bogus', 3, h)]. *)
Lemma generateRecurringDates_unknown_pattern_witness :
  generateRecurringDates (civil 2024 3 5) "bogus" 3 (Some (civil 2024 6 1))
    = [civil 2024 3 5].
Proof.
  apply (generateRecurringDates_unknown_pattern (civil 2024 3 5) "bogus" 3
           (Some (civil 2024 6 1))).
  - vm_compute. reflexivity.
  - discriminate.
  - discriminate.
  - discriminate.
Defined.

(** With the default horizon the loop runs at most 366 times. *)
Lemma default_horizon_iterations (startDate : Date) (pattern : string)
    (interval : Z) :
  iterations (runRecurrence startDate pattern interval None) <= 366.
Proof.
  rewrite runRecurrence_eq. unfold effectiveMaxDate.
  destruct startDate as [t|].
  - destruct (addYears (Some t) 1) as [m|] eqn:E.
    + pose proof (addYears_1 _ _ E) as Hb.
      apply (whileLoop_within_year pattern (safeInterval interval) (Some m)
               (safeInterval_pos interval) t m).
      * reflexivity.
      * lia.
      * unfold initialState. cbn [iterations]. lia.
      * unfold initialState. cbn [currentDate iterations]. lia.
    + rewrite whileLoop_stop.
      * unfold initialState. cbn [iterations]. lia.
      * unfold initialState. cbn [currentDate date_lt andb]. reflexivity.
  - rewrite whileLoop_stop.
    + unfold initialState. cbn [iterations]. lia.
    + unfold initialState. cbn [currentDate date_lt andb]. reflexivity.
Qed.

(** C9.  The loop of [generateRecurringDates] always stops: the fuel of the
    model is never what ends it, it runs at most 1000 iterations and the
    result has at most 1001 elements, and it ends because its condition
    fails or because an unknown pattern returns.  With the default horizon
    it runs at most 366 iterations, so the ceiling of 1000 is not reached
    and, for a known pattern, the loop ends because the cursor is no longer
    before the horizon. *)
Theorem generateRecurringDates_terminates (startDate : Date) (pattern : string)
    (interval : Z) (endDate : option Date) :
  let maxDate := effectiveMaxDate startDate endDate in
  let final := runRecurrence startDate pattern interval endDate in
  (forall extra,
     whileLoop (extra + Z.to_nat maxIterations) pattern (safeInterval interval)
       maxDate (initialState startDate) = final) /\
  0 <= iterations final <= maxIterations /\
  (List.length (generateRecurringDates startDate pattern interval endDate)
     <= 1001)%nat /\
  (date_lt (currentDate final) maxDate && (iterations final <? maxIterations)
     = false
   \/ knownPattern pattern = false) /\
  (endDate = None ->
   iterations final <= 366 /\
   (knownPattern pattern = true ->
    date_lt (currentDate final) maxDate = false)).
Proof.
  intros maxDate final. subst maxDate final.
  assert (Hfuel : maxIterations - iterations (initialState startDate)
                  <= Z.of_nat (Z.to_nat maxIterations)).
  { rewrite Z2Nat.id by (unfold maxIterations; lia).
    unfold initialState. cbn [iterations]. lia. }
  pose proof (whileLoop_count pattern (safeInterval interval)
                (effectiveMaxDate startDate endDate)
                (Z.to_nat maxIterations) (initialState startDate)) as Hcount.
  pose proof (whileLoop_exit pattern (safeInterval interval)
                (effectiveMaxDate startDate endDate)
                (Z.to_nat maxIterations) (initialState startDate) Hfuel)
    as Hexit.
  pose proof (default_horizon_iterations startDate pattern interval) as H366.
  rewrite <- runRecurrence_eq in Hcount, Hexit.
  destruct Hcount as [Hit Hlen].
  { unfold initialState, maxIterations. cbn [iterations]. lia. }
  unfold initialState in Hit, Hlen.
  cbn [iterations dates List.length] in Hit, Hlen.
  assert (Hexit' :
    continues (effectiveMaxDate startDate endDate)
      (runRecurrence startDate pattern interval endDate) = false
    \/ knownPattern pattern = false).
  { destruct Hexit as [Hc|Ha]; [left; exact Hc|right].
    destruct (knownPattern pattern) eqn:Hk; [|reflexivity].
    exfalso. exact (advance_known _ _ _ Hk Ha). }
  split; [|split; [|split; [|split]]].
  - intros extra. rewrite runRecurrence_eq.
    apply whileLoop_more_fuel. exact Hfuel.
  - lia.
  - destruct startDate as [t|].
    + rewrite generateRecurringDates_valid.
      unfold maxIterations in Hit. lia.
    + rewrite generateRecurringDates_invalid. cbn [List.length]. lia.
  - exact Hexit'.
  - intros ->. split; [exact H366|].
    intros Hk. destruct Hexit' as [Hc|Hk']; [|congruence].
    unfold continues in Hc. apply andb_false_iff in Hc as [Hc|Hc]; [exact Hc|].
    apply Z.ltb_ge in Hc. unfold maxIterations in Hc. lia.
Qed.

(** Witness for C9: a daily event with the default horizon. *)
Lemma generateRecurringDates_terminates_witness :
  iterations (runRecurrence (civil 2024 1 1) "daily" 1 None) <= 366 /\
  date_lt (currentDate (runRecurrence (civil 2024 1 1) "daily" 1 None))
          (effectiveMaxDate (civil 2024 1 1) None) = false.
Proof.
  destruct (generateRecurringDates_terminates (civil 2024 1 1) "daily" 1 None)
    as (_ & _ & _ & _ & H).
  destruct (H eq_refl) as [H1 H2].
  split; [exact H1|exact (H2 eq_refl)].
Defined.

Example fortnightly_2024 :
  firstn 4 (generateRecurringDates (civil 2024 1 1) "weekly" 2 None)
    = [civil 2024 1 1; civil 2024 1 15; civil 2024 1 29; civil 2024 2 12].
Proof. vm_compute. reflexivity. Qed.

Example daily_default_horizon_iterations :
  iterations (runRecurrence (civil 2024 1 1) "daily" 1 None) = 366.
Proof. vm_compute. reflexivity. Qed.

Example daily_long_horizon_hits_ceiling :
  iterations (runRecurrence (civil 2024 1 1) "daily" 1 (Some (civil 2044 1 1)))
    = 1000.
Proof. vm_compute. reflexivity. Qed.

(** * Properties of the resolver *)

Module ResolverFacts.
Import EventUtils.

Lemma id_eqb_eq (a b : option string) : id_eqb a b = true <-> a = b.
Proof.
  destruct a as [x|], b as [y|]; cbn [id_eqb].
  - rewrite String.eqb_eq. split; congruence.
  - split; discriminate.
  - split; discriminate.
  - split; reflexivity.
Qed.

Section Generic.
Variable parseISO : string -> Date.
Variable newDate : string -> Date.

Lemma parseDate_valid (now : Z) (s : string) :
  isValid (parseISO s) = true -> parseDate parseISO now s = parseISO s.
Proof. intros H. unfold parseDate. rewrite H. reflexivity. Qed.

Lemma parseDate_invalid (now : Z) (s : string) :
  isValid (parseISO s) = false -> parseDate parseISO now s = Some now.
Proof. intros H. unfold parseDate. rewrite H. reflexivity. Qed.

(** [parseDate] never returns an invalid date: the guards that follow it
    in eventUtils.js cannot fire. *)
Lemma parseDate_isValid (now : Z) (s : string) :
  isValid (parseDate parseISO now s) = true.
Proof.
  unfold parseDate. destruct (isValid (parseISO s)) eqn:E; [exact E|reflexivity].
Qed.

(** An event that is not expanded occurs on the day [parseDate] gives. *)
Lemma occursOn_single (now : Z) (date : Date) (event : Event.t) :
  Event.recurring event
    && negb (String.eqb (Event.recurrencePattern event) "none") = false ->
  occursOn parseISO now date event
    = isSameDay (parseDate parseISO now (Event.date event)) date.
Proof.
  intros H. unfold occursOn. rewrite H, parseDate_isValid. reflexivity.
Qed.

(** The time stored in an event whose date parses does not depend on the
    clock. *)
Lemma occursOn_now_irrelevant (now1 now2 : Z) (date : Date) (event : Event.t) :
  isValid (parseISO (Event.date event)) = true ->
  occursOn parseISO now1 date event = occursOn parseISO now2 date event.
Proof.
  intros H. unfold occursOn. rewrite !parseDate_valid by exact H. reflexivity.
Qed.

Lemma getEventsForDate_now_irrelevant (now1 now2 : Z) (events : list Event.t)
    (date : Date) :
  Forall (fun e => isValid (parseISO (Event.date e)) = true) events ->
  getEventsForDate parseISO now1 events date
    = getEventsForDate parseISO now2 events date.
Proof.
  intros H. unfold getEventsForDate. destruct (negb (isValid date)); [reflexivity|].
  induction H as [|e es He _ IH]; [reflexivity|].
  cbn [filter]. rewrite IH, (occursOn_now_irrelevant now1 now2 date e He).
  reflexivity.
Qed.

Lemma checkEventConflicts_now_irrelevant (now1 now2 : Z) (newEvent : Event.t)
    (existingEvents : list Event.t) :
  isValid (parseISO (Event.date newEvent)) = true ->
  Forall (fun e => isValid (parseISO (Event.date e)) = true) existingEvents ->
  checkEventConflicts parseISO newDate now1 newEvent existingEvents
    = checkEventConflicts parseISO newDate now2 newEvent existingEvents.
Proof.
  intros Hn H. unfold checkEventConflicts.
  destruct (_ || _); [reflexivity|].
  induction H as [|e es He _ IH]; [reflexivity|].
  cbn [filter]. rewrite IH. unfold conflictFilter.
  rewrite !parseDate_valid by assumption. reflexivity.
Qed.

(** What it takes for an existing event to be reported as a conflict. *)
Lemma conflictFilter_true (now : Z) (newEvent : Event.t) (newStart newEnd : Date)
    (event : Event.t) :
  conflictFilter parseISO newDate now newEvent newStart newEnd event = true <->
  Event.id event <> Event.id newEvent /\
  isSameDay (parseDate parseISO now (Event.date event))
            (parseDate parseISO now (Event.date newEvent)) = true /\
  isValid (dateTimeOf newDate event (Event.startTime event)) = true /\
  isValid (dateTimeOf newDate event (Event.endTime event)) = true /\
  date_lt newStart (dateTimeOf newDate event (Event.endTime event)) = true /\
  date_gt newEnd (dateTimeOf newDate event (Event.startTime event)) = true.
Proof.
  unfold conflictFilter. rewrite !parseDate_isValid. cbn [negb orb].
  destruct (id_eqb (Event.id event) (Event.id newEvent)) eqn:Eid.
  - apply id_eqb_eq in Eid. split; [discriminate|]. intros [Hne _]. contradiction.
  - assert (Hne : Event.id event <> Event.id newEvent).
    { intros E. apply id_eqb_eq in E. congruence. }
    destruct (isSameDay _ _); cbn [negb].
    + destruct (isValid (dateTimeOf newDate event (Event.startTime event)));
        cbn [negb orb].
      * destruct (isValid (dateTimeOf newDate event (Event.endTime event)));
          cbn [negb].
        -- rewrite andb_true_iff. tauto.
        -- split; [discriminate|]. intros (_ & _ & _ & H & _). discriminate H.
      * split; [discriminate|]. intros (_ & _ & H & _). discriminate H.
    + split; [discriminate|]. intros (_ & H & _). discriminate H.
Qed.

Lemma In_checkEventConflicts (now : Z) (newEvent : Event.t)
    (existingEvents : list Event.t) (event : Event.t) :
  In event (checkEventConflicts parseISO newDate now newEvent existingEvents) ->
  In event existingEvents /\
  conflictFilter parseISO newDate now newEvent
    (dateTimeOf newDate newEvent (Event.startTime newEvent))
    (dateTimeOf newDate newEvent (Event.endTime newEvent)) event = true.
Proof.
  unfold checkEventConflicts. destruct (_ || _); [intros []|].
  apply filter_In.
Qed.

End Generic.

End ResolverFacts.

Import ResolverFacts.

Example clock_samples :
  Some noon_2024_03_05 = civilTime 2024 3 5 12 0 /\
  Some noon_2024_03_06 = civilTime 2024 3 6 12 0.
Proof. split; reflexivity. Qed.

(** C1 (the code departs from the claim).  An event whose stored date does
    not parse is reported on the day of the wall clock: [parseDate] replaces
    the unparseable date by the current time, so the [isValid] guards of
    [getEventsForDate] never reject it.  Evaluated with the clock at
    2024-03-05 12:00: a single event dated "garbage" is listed for
    2024-03-05, and a daily event dated "garbage" also for the day after. *)
Theorem unparseable_date_occurs_today :
  isValid (IsoFormat.parseISO "garbage") = false /\
  getEventsForDate IsoFormat.parseISO noon_2024_03_05
    [timed "1" "garbage" "09:00" "10:00"] (civil 2024 3 5)
    = [timed "1" "garbage" "09:00" "10:00"] /\
  getEventsForDate IsoFormat.parseISO noon_2024_03_05
    [repeating "2" "garbage" "09:00" "10:00" "daily" 1] (civil 2024 3 6)
    = [repeating "2" "garbage" "09:00" "10:00" "daily" 1].
Proof.
  split; [reflexivity|]. split; vm_compute; reflexivity.
Qed.

(** The same for every parser and every clock: a non-recurring event with an
    unparseable date occurs on the current day. *)
Lemma unparseable_single_occurs_now (parseISO : string -> Date) (now : Z)
    (event : Event.t) :
  wfDate (Some now) ->
  Event.recurring event = false ->
  isValid (parseISO (Event.date event)) = false ->
  occursOn parseISO now (Some now) event = true.
Proof.
  intros Hwf Hr Hp. rewrite occursOn_single by (rewrite Hr; reflexivity).
  rewrite parseDate_invalid by exact Hp.
  rewrite isSameDay_Some by exact Hwf. apply Z.eqb_refl.
Qed.

(** C2 (the code departs from the claim).  Two calls of [getEventsForDate]
    with the same event list and the same query date return different lists
    when the clock differs: the event dated "garbage" is listed for
    2024-03-05 when the call is made on that day and is not listed when the
    call is made a day later. *)
Theorem getEventsForDate_depends_on_clock :
  getEventsForDate IsoFormat.parseISO noon_2024_03_05
    [timed "1" "garbage" "09:00" "10:00"] (civil 2024 3 5)
    = [timed "1" "garbage" "09:00" "10:00"] /\
  getEventsForDate IsoFormat.parseISO noon_2024_03_06
    [timed "1" "garbage" "09:00" "10:00"] (civil 2024 3 5)
    = [].
Proof.
  split; vm_compute; reflexivity.
Qed.

(** C5.  [checkEventConflicts] never returns an existing event that has the
    candidate's id, nor one whose stored date is another calendar day than
    the candidate's.  Recurrence is not expanded: a daily event anchored on
    2024-03-04 occurs on 2024-03-05 according to [getEventsForDate], yet it
    is not a conflict for a candidate on 2024-03-05 at the same hours. *)
Theorem checkEventConflicts_excludes :
  (forall (parseISO newDate : string -> Date) (now : Z)
          (newEvent : Event.t) (existingEvents : list Event.t)
          (event : Event.t),
     Event.id event = Event.id newEvent \/
     (isValid (parseISO (Event.date event)) = true /\
      isValid (parseISO (Event.date newEvent)) = true /\
      isSameDay (parseISO (Event.date event))
                (parseISO (Event.date newEvent)) = false) ->
     ~ In event
          (checkEventConflicts parseISO newDate now newEvent existingEvents))
  /\
  (forall now : Z,
     getEventsForDate IsoFormat.parseISO now
       [repeating "standup" "2024-03-04" "09:00" "10:00" "daily" 1]
       (civil 2024 3 5)
       = [repeating "standup" "2024-03-04" "09:00" "10:00" "daily" 1] /\
     checkEventConflicts IsoFormat.parseISO IsoFormat.newDate now
       (timed "new" "2024-03-05" "09:00" "10:00")
       [repeating "standup" "2024-03-04" "09:00" "10:00" "daily" 1]
       = []).
Proof.
  split.
  - intros parseISO newDate now newEvent existingEvents event Hex Hin.
    apply In_checkEventConflicts in Hin as [_ Hf].
    apply conflictFilter_true in Hf as (Hid & Hday & _).
    destruct Hex as [Heq|(Hv1 & Hv2 & Hdiff)]; [contradiction|].
    rewrite !parseDate_valid in Hday by assumption. congruence.
  - intros now. split; vm_compute; reflexivity.
Qed.

(** Witness for C5: the candidate's own stored copy, and an event on the
    following day. *)
Lemma checkEventConflicts_excludes_witness :
  ~ In (timed "a" "2024-03-05" "09:00" "10:00")
       (checkEventConflicts IsoFormat.parseISO IsoFormat.newDate noon_2024_03_05
          (timed "a" "2024-03-05" "09:30" "10:30")
          [timed "a" "2024-03-05" "09:00" "10:00";
           timed "b" "2024-03-06" "09:00" "10:00"]) /\
  ~ In (timed "b" "2024-03-06" "09:00" "10:00")
       (checkEventConflicts IsoFormat.parseISO IsoFormat.newDate noon_2024_03_05
          (timed "a" "2024-03-05" "09:30" "10:30")
          [timed "a" "2024-03-05" "09:00" "10:00";
           timed "b" "2024-03-06" "09:00" "10:00"]).
Proof.
  split.
  - apply (proj1 checkEventConflicts_excludes). left. reflexivity.
  - apply (proj1 checkEventConflicts_excludes). right.
    repeat split; vm_compute; reflexivity.
Defined.

(** C6.  For two events with different ids whose stored dates are the same
    calendar day and whose start and end times are well formed, the existing
    event is a conflict exactly when
    [candidateStart < otherEnd] and [candidateEnd > otherStart].  On the
    same date, 09:00-10:00 and 10:00-11:00 do not conflict, 09:00-10:01 and
    10:00-11:00 do, and 09:30-09:45 conflicts with 09:00-10:00, which
    contains it. *)
Theorem checkEventConflicts_half_open :
  (forall (parseISO newDate : string -> Date) (now : Z)
          (newEvent : Event.t) (existingEvents : list Event.t)
          (event : Event.t),
     Event.id event <> Event.id newEvent ->
     isValid (parseISO (Event.date event)) = true ->
     isValid (parseISO (Event.date newEvent)) = true ->
     isSameDay (parseISO (Event.date event))
               (parseISO (Event.date newEvent)) = true ->
     isValid (dateTimeOf newDate newEvent (Event.startTime newEvent)) = true ->
     isValid (dateTimeOf newDate newEvent (Event.endTime newEvent)) = true ->
     isValid (dateTimeOf newDate event (Event.startTime event)) = true ->
     isValid (dateTimeOf newDate event (Event.endTime event)) = true ->
     (In event
         (checkEventConflicts parseISO newDate now newEvent existingEvents)
      <->
      In event existingEvents /\
      date_lt (dateTimeOf newDate newEvent (Event.startTime newEvent))
              (dateTimeOf newDate event (Event.endTime event)) = true /\
      date_gt (dateTimeOf newDate newEvent (Event.endTime newEvent))
              (dateTimeOf newDate event (Event.startTime event)) = true))
  /\
  (forall now : Z,
     checkEventConflicts IsoFormat.parseISO IsoFormat.newDate now
       (timed "new" "2024-03-05" "09:00" "10:00")
       [timed "old" "2024-03-05" "10:00" "11:00"]
       = [] /\
     checkEventConflicts IsoFormat.parseISO IsoFormat.newDate now
       (timed "new" "2024-03-05" "09:00" "10:01")
       [timed "old" "2024-03-05" "10:00" "11:00"]
       = [timed "old" "2024-03-05" "10:00" "11:00"] /\
     checkEventConflicts IsoFormat.parseISO IsoFormat.newDate now
       (timed "new" "2024-03-05" "09:30" "09:45")
       [timed "A" "2024-03-05" "09:00" "10:00"]
       = [timed "A" "2024-03-05" "09:00" "10:00"]).
Proof.
  split.
  - intros parseISO newDate now newEvent existingEvents event
           Hid Hv1 Hv2 Hday Hns Hne Hes Hee.
    unfold checkEventConflicts. rewrite Hns, Hne. cbn [negb orb].
    rewrite filter_In, conflictFilter_true.
    rewrite !parseDate_valid by assumption.
    tauto.
  - intros now. split; [|split]; vm_compute; reflexivity.
Qed.

(** Witness for C6: 09:30-10:30 against 10:00-11:00 on 2024-03-05. *)
Lemma checkEventConflicts_half_open_witness :
  In (timed "old" "2024-03-05" "10:00" "11:00")
     (checkEventConflicts IsoFormat.parseISO IsoFormat.newDate noon_2024_03_05
        (timed "new" "2024-03-05" "09:30" "10:30")
        [timed "old" "2024-03-05" "10:00" "11:00"])
  <->
  In (timed "old" "2024-03-05" "10:00" "11:00")
     [timed "old" "2024-03-05" "10:00" "11:00"] /\
  date_lt (dateTimeOf IsoFormat.newDate
             (timed "new" "2024-03-05" "09:30" "10:30") "09:30")
          (dateTimeOf IsoFormat.newDate
             (timed "old" "2024-03-05" "10:00" "11:00") "11:00") = true /\
  date_gt (dateTimeOf IsoFormat.newDate
             (timed "new" "2024-03-05" "09:30" "10:30") "10:30")
          (dateTimeOf IsoFormat.newDate
             (timed "old" "2024-03-05" "10:00" "11:00") "10:00") = true.
Proof.
  apply (proj1 checkEventConflicts_half_open IsoFormat.parseISO IsoFormat.newDate
           noon_2024_03_05 (timed "new" "2024-03-05" "09:30" "10:30")
           [timed "old" "2024-03-05" "10:00" "11:00"]
           (timed "old" "2024-03-05" "10:00" "11:00")).
  - discriminate.
  - vm_compute. reflexivity.
  - vm_compute. reflexivity.
  - vm_compute. reflexivity.
  - vm_compute. reflexivity.
  - vm_compute. reflexivity.
  - vm_compute. reflexivity.
  - vm_compute. reflexivity.
Defined.

(** C10.  An event with [recurring = true] and [recurrencePattern = "none"]
    is handled by the branch for single events: its recurrence is not
    expanded, it is filtered exactly like the same event with
    [recurring = false], and when its stored date parses it is listed
    exactly for the calendar day of that date. *)
Theorem recurring_none_is_single (parseISO : string -> Date) (now : Z)
    (events : list Event.t) (date : Date) (event : Event.t) :
  Event.recurring event = true ->
  Event.recurrencePattern event = "none" ->
  occursOn parseISO now date event
    = (isValid (parseDate parseISO now (Event.date event))
       && isSameDay (parseDate parseISO now (Event.date event)) date) /\
  occursOn parseISO now date event
    = occursOn parseISO now date (asSingle event) /\
  (isValid date = true ->
   isValid (parseISO (Event.date event)) = true ->
   (In event (getEventsForDate parseISO now events date) <->
    In event events /\ isSameDay (parseISO (Event.date event)) date = true)).
Proof.
  intros Hr Hp.
  assert (Hbranch : Event.recurring event
            && negb (String.eqb (Event.recurrencePattern event) "none") = false).
  { rewrite Hr, Hp. reflexivity. }
  split; [|split].
  - unfold occursOn. rewrite Hbranch. reflexivity.
  - rewrite (occursOn_single parseISO now date event Hbranch).
    rewrite (occursOn_single parseISO now date (asSingle event)) by reflexivity.
    reflexivity.
  - intros Hd Hv. unfold getEventsForDate. rewrite Hd. cbn [negb].
    rewrite filter_In, (occursOn_single parseISO now date event Hbranch).
    rewrite parseDate_valid by exact Hv. reflexivity.
Qed.

(** Witness for C10: an event flagged recurring with pattern "none", stored
    on 2024-03-05. *)
Lemma recurring_none_is_single_witness :
  Event.recurring (repeating "r" "2024-03-05" "09:00" "10:00" "none" 2) = true /\
  Event.recurrencePattern (repeating "r" "2024-03-05" "09:00" "10:00" "none" 2)
    = "none" /\
  occursOn IsoFormat.parseISO noon_2024_03_06 (civil 2024 3 5)
    (repeating "r" "2024-03-05" "09:00" "10:00" "none" 2)
  = occursOn IsoFormat.parseISO noon_2024_03_06 (civil 2024 3 5)
      (asSingle (repeating "r" "2024-03-05" "09:00" "10:00" "none" 2)).
Proof.
  split; [reflexivity|]. split; [reflexivity|].
  exact (proj1 (proj2 (recurring_none_is_single IsoFormat.parseISO
                         noon_2024_03_06 [] (civil 2024 3 5)
                         (repeating "r" "2024-03-05" "09:00" "10:00" "none" 2)
                         eq_refl eq_refl))).
Defined.

Example recurring_none_days :
  getEventsForDate IsoFormat.parseISO noon_2024_03_06
    [repeating "r" "2024-03-05" "09:00" "10:00" "none" 2] (civil 2024 3 5)
    = [repeating "r" "2024-03-05" "09:00" "10:00" "none" 2] /\
  getEventsForDate IsoFormat.parseISO noon_2024_03_06
    [repeating "r" "2024-03-05" "09:00" "10:00" "none" 2] (civil 2024 3 7)
    = [].
Proof. split; vm_compute; reflexivity. Qed.

(** * Further properties of the resolver *)

Lemma isSameDay_sym (a b : Date) : isSameDay a b = isSameDay b a.
Proof.
  unfold isSameDay. destruct (startOfDay a), (startOfDay b); try reflexivity.
  apply Z.eqb_sym.
Qed.

Lemma date_lt_valid (a b : Date) :
  date_lt a b = true -> isValid a = true /\ isValid b = true.
Proof. destruct a, b; cbn; intros H; try discriminate H; split; reflexivity. Qed.

(** Against a single existing event, [checkEventConflicts] reports a
    conflict exactly when every test of the callback passes. *)
Lemma checkEventConflicts_single (parseISO newDate : string -> Date) (now : Z)
    (newEvent event : Event.t) :
  checkEventConflicts parseISO newDate now newEvent [event] <> [] <->
  Event.id event <> Event.id newEvent /\
  isSameDay (parseDate parseISO now (Event.date event))
            (parseDate parseISO now (Event.date newEvent)) = true /\
  date_lt (dateTimeOf newDate newEvent (Event.startTime newEvent))
          (dateTimeOf newDate event (Event.endTime event)) = true /\
  date_lt (dateTimeOf newDate event (Event.startTime event))
          (dateTimeOf newDate newEvent (Event.endTime newEvent)) = true.
Proof.
  unfold checkEventConflicts.
  destruct (isValid (dateTimeOf newDate newEvent (Event.startTime newEvent)))
    eqn:Hs; cbn [negb orb].
  - destruct (isValid (dateTimeOf newDate newEvent (Event.endTime newEvent)))
      eqn:He; cbn [negb filter].
    + destruct (conflictFilter _ _ _ _ _ _ _) eqn:Hf.
      * apply conflictFilter_true in Hf as (Hid & Hday & _ & _ & Hlt & Hgt).
        split; [intros _|discriminate]. unfold date_gt in Hgt. tauto.
      * split; [intros H; contradiction H; reflexivity|].
        intros (Hid & Hday & Hlt & Hgt).
        assert (Ht : conflictFilter parseISO newDate now newEvent
                  (dateTimeOf newDate newEvent (Event.startTime newEvent))
                  (dateTimeOf newDate newEvent (Event.endTime newEvent)) event
                = true).
        { apply conflictFilter_true. unfold date_gt.
          destruct (date_lt_valid _ _ Hlt) as [_ Hve].
          destruct (date_lt_valid _ _ Hgt) as [Hvs _]. tauto. }
        congruence.
    + split; [intros H; contradiction H; reflexivity|].
      intros (_ & _ & _ & Hgt). apply date_lt_valid in Hgt as [_ Hv]. congruence.
  - split; [intros H; contradiction H; reflexivity|].
    intros (_ & _ & Hlt & _). apply date_lt_valid in Hlt as [Hv _]. congruence.
Qed.

(** X1.  Conflict detection is symmetric: event [a] conflicts with the
    stored event [b] exactly when [b] conflicts with the stored event [a],
    for every pair of events, every clock and every behaviour of the two
    string parsers. *)
Theorem checkEventConflicts_symmetric (parseISO newDate : string -> Date)
    (now : Z) (a b : Event.t) :
  checkEventConflicts parseISO newDate now a [b] <> [] <->
  checkEventConflicts parseISO newDate now b [a] <> [].
Proof.
  rewrite !checkEventConflicts_single.
  rewrite (isSameDay_sym (parseDate parseISO now (Event.date b))).
  split; intros (Hid & Hday & H1 & H2); repeat split;
    try assumption; congruence.
Qed.

(** X2.  Malformed times never raise a conflict: a candidate whose start or
    end does not give a valid Date has no conflicts at all, and a stored
    event whose start or end does not give a valid Date is never reported;
    the other stored events are still checked. *)
Theorem checkEventConflicts_malformed_time (parseISO newDate : string -> Date)
    (now : Z) (newEvent : Event.t) (existingEvents : list Event.t) :
  (isValid (dateTimeOf newDate newEvent (Event.startTime newEvent)) = false \/
   isValid (dateTimeOf newDate newEvent (Event.endTime newEvent)) = false ->
   checkEventConflicts parseISO newDate now newEvent existingEvents = []) /\
  (forall event,
     isValid (dateTimeOf newDate event (Event.startTime event)) = false \/
     isValid (dateTimeOf newDate event (Event.endTime event)) = false ->
     ~ In event
          (checkEventConflicts parseISO newDate now newEvent existingEvents)) /\
  (forall broken rest,
     isValid (dateTimeOf newDate broken (Event.startTime broken)) = false \/
     isValid (dateTimeOf newDate broken (Event.endTime broken)) = false ->
     existingEvents = broken :: rest ->
     checkEventConflicts parseISO newDate now newEvent existingEvents
       = checkEventConflicts parseISO newDate now newEvent rest).
Proof.
  split; [|split].
  - intros H. unfold checkEventConflicts.
    destruct H as [H|H]; rewrite H; cbn [negb]; [reflexivity|].
    rewrite orb_true_r. reflexivity.
  - intros event H Hin. apply In_checkEventConflicts in Hin as [_ Hf].
    apply conflictFilter_true in Hf as (_ & _ & Hs & He & _).
    destruct H; congruence.
  - intros broken rest H ->. unfold checkEventConflicts.
    destruct (_ || _); [reflexivity|]. cbn [filter].
    destruct (conflictFilter _ _ _ _ _ _ broken) eqn:Hf; [|reflexivity].
    apply conflictFilter_true in Hf as (_ & _ & Hs & He & _).
    destruct H; congruence.
Qed.

(** Witness for X2: a candidate without an end time, and a stored event
    with the time "9am". *)
Lemma checkEventConflicts_malformed_time_witness :
  checkEventConflicts IsoFormat.parseISO IsoFormat.newDate noon_2024_03_05
    (timed "new" "2024-03-05" "09:00" "")
    [timed "old" "2024-03-05" "09:00" "10:00"] = [] /\
  ~ In (timed "odd" "2024-03-05" "9am" "10:00")
       (checkEventConflicts IsoFormat.parseISO IsoFormat.newDate noon_2024_03_05
          (timed "new" "2024-03-05" "09:00" "10:00")
          [timed "odd" "2024-03-05" "9am" "10:00";
           timed "old" "2024-03-05" "09:30" "10:30"]) /\
  checkEventConflicts IsoFormat.parseISO IsoFormat.newDate noon_2024_03_05
    (timed "new" "2024-03-05" "09:00" "10:00")
    [timed "odd" "2024-03-05" "9am" "10:00";
     timed "old" "2024-03-05" "09:30" "10:30"]
  = checkEventConflicts IsoFormat.parseISO IsoFormat.newDate noon_2024_03_05
      (timed "new" "2024-03-05" "09:00" "10:00")
      [timed "old" "2024-03-05" "09:30" "10:30"].
Proof.
  split; [|split].
  - apply (proj1 (checkEventConflicts_malformed_time IsoFormat.parseISO
                    IsoFormat.newDate noon_2024_03_05
                    (timed "new" "2024-03-05" "09:00" "") _)).
    right. vm_compute. reflexivity.
  - apply (proj1 (proj2 (checkEventConflicts_malformed_time IsoFormat.parseISO
                    IsoFormat.newDate noon_2024_03_05
                    (timed "new" "2024-03-05" "09:00" "10:00") _))).
    left. vm_compute. reflexivity.
  - apply (proj2 (proj2 (checkEventConflicts_malformed_time IsoFormat.parseISO
                    IsoFormat.newDate noon_2024_03_05
                    (timed "new" "2024-03-05" "09:00" "10:00") _))
             (timed "odd" "2024-03-05" "9am" "10:00")
             [timed "old" "2024-03-05" "09:30" "10:30"]).
    + left. vm_compute. reflexivity.
    + reflexivity.
Defined.

(** X3.  A single (non-recurring) event whose stored date parses is listed
    by [getEventsForDate] exactly for the query dates that fall on its
    calendar day, at whatever time of day the query date is and whatever the
    clock reads. *)
Theorem getEventsForDate_single_event (parseISO : string -> Date) (now : Z)
    (events : list Event.t) (event : Event.t) (a q : Z) :
  Event.recurring event = false ->
  parseISO (Event.date event) = Some a -> wfDate (Some a) ->
  wfDate (Some q) ->
  (In event (getEventsForDate parseISO now events (Some q)) <->
   In event events /\ Day q = Day a).
Proof.
  intros Hr Hp Ha Hq. unfold getEventsForDate. cbn [isValid negb].
  rewrite filter_In, occursOn_single by (rewrite Hr; reflexivity).
  rewrite parseDate_valid by (rewrite Hp; reflexivity).
  rewrite Hp, isSameDay_Some by assumption.
  rewrite Z.eqb_eq. intuition congruence.
Qed.

(** Witness for X3: an event stored for 2024-03-05, queried at noon of that
    day. *)
Lemma getEventsForDate_single_event_witness :
  In (timed "a" "2024-03-05" "09:00" "10:00")
     (getEventsForDate IsoFormat.parseISO noon_2024_03_06
        [timed "a" "2024-03-05" "09:00" "10:00"] (Some noon_2024_03_05))
  <->
  In (timed "a" "2024-03-05" "09:00" "10:00")
     [timed "a" "2024-03-05" "09:00" "10:00"] /\
  Day noon_2024_03_05 = Day 1709596800000.
Proof.
  apply (getEventsForDate_single_event IsoFormat.parseISO noon_2024_03_06
           [timed "a" "2024-03-05" "09:00" "10:00"]
           (timed "a" "2024-03-05" "09:00" "10:00")
           1709596800000 noon_2024_03_05).
  - reflexivity.
  - vm_compute. reflexivity.
  - vm_compute. split; discriminate.
  - vm_compute. split; discriminate.
Defined.

(** * Further properties of the recurrence expander *)

Module ExpansionFacts.

Lemma Day_add_days (c n : Z) : Day (c + n * msPerDay) = Day c + n.
Proof. unfold Day. rewrite Z.div_add by (unfold msPerDay; lia). reflexivity. Qed.

Lemma map_seq_shift {A} (f : nat -> A) (start len : nat) :
  map f (seq (S start) len) = map (fun k => f (S k)) (seq start len).
Proof. rewrite <- seq_shift, map_map. reflexivity. Qed.

Section Linear.
Variable pattern : string.
Variable si n h : Z.
Hypothesis advance_days : forall d, advance pattern si d = Some (addDays d n).
Hypothesis n_pos : 1 <= n.
Hypothesis h_wf : wfDate (Some h).

(** Number of elements the loop still appends from cursor [c] after
    [iterations] rounds. *)
Definition remaining (c iterations : Z) : nat :=
  Z.to_nat (Z.min ((h - c) / (n * msPerDay)) (maxIterations - iterations)).

Lemma whileLoop_linear (fuel : nat) :
  forall (st : LoopState) (c : Z),
    currentDate st = Some c -> wfDate (Some c) ->
    maxIterations - iterations st <= Z.of_nat fuel ->
    dates (whileLoop fuel pattern si (Some h) st)
    = (dates st
       ++ map (fun k => Some ((Day c + Z.of_nat k * n) * msPerDay))
              (seq 1 (remaining c (iterations st))))%list.
Proof.
  assert (Hs : 0 < n * msPerDay) by (unfold msPerDay; lia).
  induction fuel as [|fuel IH]; intros st c Hc Hwf Hfuel.
  - rewrite whileLoop_stop.
    + unfold remaining.
      replace (Z.to_nat _) with 0%nat by lia.
      cbn [seq map]. symmetry. apply app_nil_r.
    + apply andb_false_iff. right. apply Z.ltb_ge. lia.
  - destruct (date_lt (currentDate st) (Some h)
              && (iterations st <? maxIterations)) eqn:Hcond.
    + rewrite whileLoop_step by exact Hcond.
      apply andb_true_iff in Hcond as [Hlt Hit].
      rewrite Hc in Hlt |- *. cbn [date_lt] in Hlt.
      apply Z.ltb_lt in Hlt. apply Z.ltb_lt in Hit.
      rewrite advance_days, addDays_eq by lia.
      destruct (Z_le_gt_dec (c + n * msPerDay) h) as [Hle|Hgt].
      * (* the advanced cursor is appended *)
        cbn [wfDate] in Hwf, h_wf.
        rewrite TimeClip_in_range by lia.
        assert (Hwf' : wfDate (Some (c + n * msPerDay))) by (cbn [wfDate]; lia).
        replace (date_le (Some (c + n * msPerDay)) (Some h)) with true
          by (symmetry; apply Z.leb_le; exact Hle).
        rewrite (IH _ (c + n * msPerDay)); cbn [currentDate iterations dates];
          [|reflexivity|exact Hwf'|lia].
        rewrite startOfDay_Some by exact Hwf'.
        rewrite <- app_assoc. f_equal.
        assert (Hq : (h - (c + n * msPerDay)) / (n * msPerDay)
                     = (h - c) / (n * msPerDay) - 1).
        { replace (h - (c + n * msPerDay)) with (h - c + (-1) * (n * msPerDay))
            by lia.
          rewrite Z.div_add by lia. lia. }
        assert (Hq1 : 1 <= (h - c) / (n * msPerDay))
          by (apply Z.div_le_lower_bound; lia).
        unfold remaining. rewrite Hq.
        replace (Z.to_nat (Z.min ((h - c) / (n * msPerDay))
                             (maxIterations - iterations st)))
          with (S (Z.to_nat (Z.min ((h - c) / (n * msPerDay) - 1)
                               (maxIterations - (iterations st + 1)))))
          by lia.
        cbn [seq map app]. rewrite Day_add_days.
        f_equal; [f_equal; lia|].
        rewrite (map_seq_shift _ 1). apply map_ext. intros k. f_equal. lia.
      * (* the advanced cursor is past the horizon: nothing more is appended *)
        assert (Hnext : date_lt (TimeClip (c + n * msPerDay)) (Some h) = false
                        /\ date_le (TimeClip (c + n * msPerDay)) (Some h) = false).
        { destruct (TimeClip (c + n * msPerDay)) as [x|] eqn:E;
            [|split; reflexivity].
          apply TimeClip_Some in E as [-> _]. cbn [date_lt date_le].
          split; [apply Z.ltb_ge|apply Z.leb_gt]; lia. }
        destruct Hnext as [Hnlt Hnle]. rewrite Hnle.
        rewrite whileLoop_stop
          by (cbn [currentDate]; rewrite Hnlt; reflexivity).
        cbn [dates]. unfold remaining.
        rewrite (Z.div_small (h - c)) by lia.
        replace (Z.to_nat _) with 0%nat by lia.
        cbn [seq map]. symmetry. apply app_nil_r.
    + rewrite whileLoop_stop by exact Hcond.
      apply andb_false_iff in Hcond. unfold remaining.
      replace (Z.to_nat _) with 0%nat.
      * cbn [seq map]. symmetry. apply app_nil_r.
      * destruct Hcond as [Hlt|Hit].
        -- rewrite Hc in Hlt. cbn [date_lt] in Hlt. apply Z.ltb_ge in Hlt.
           assert ((h - c) / (n * msPerDay) <= 0)
             by (apply Z.div_le_upper_bound; lia).
           lia.
        -- apply Z.ltb_ge in Hit. lia.
Qed.

End Linear.

Lemma advance_daily (si : Z) (d : Date) :
  advance "daily" si d = Some (addDays d si).
Proof. reflexivity. Qed.

Lemma advance_weekly (si : Z) (d : Date) :
  advance "weekly" si d = Some (addDays d (si * 7)).
Proof. reflexivity. Qed.

End ExpansionFacts.

Import ExpansionFacts.

(** Closed form of the expansion for the patterns that step by days. *)
Lemma expansion_closed_form (t m : Z) (pattern : string)
    (interval : Z) (endDate : option Date) :
  pattern = "daily" \/ pattern = "weekly" ->
  wfDate (Some t) ->
  effectiveMaxDate (Some t) endDate = Some m -> wfDate (Some m) ->
  generateRecurringDates (Some t) pattern interval endDate
  = everyNthDay (Day t) (stepDays pattern interval)
      (S (Z.to_nat (Z.min ((m - t) / (stepDays pattern interval * msPerDay))
                          1000))).
Proof.
  intros Hp Hwf Hm Hmwf.
  rewrite generateRecurringDates_valid, runRecurrence_eq, Hm.
  pose proof (safeInterval_pos interval) as Hsi.
  rewrite (whileLoop_linear pattern (safeInterval interval)
             (stepDays pattern interval) m) with (c := t).
  - unfold initialState, remaining, everyNthDay.
    cbn [dates iterations seq map app].
    rewrite startOfDay_Some by exact Hwf.
    unfold maxIterations. rewrite Z.sub_0_r.
    f_equal. f_equal. lia.
  - intros d. destruct Hp as [-> | ->]; reflexivity.
  - unfold stepDays. destruct (String.eqb pattern "weekly"); lia.
  - exact Hmwf.
  - reflexivity.
  - exact Hwf.
  - rewrite Z2Nat.id by (unfold maxIterations; lia).
    unfold initialState. cbn [iterations]. lia.
Qed.

(** X4.  For the daily and the weekly pattern the expansion is exactly the
    anchor's midnight followed by the midnights [n], [2 n], ... days later,
    where [n] is the clamped interval (times 7 for weekly): no step is
    skipped and none is added.  The last occurrence is the last one whose
    time (anchor time plus whole days) is not after the horizon, and there
    are at most 1000 occurrences after the anchor. *)
Theorem generateRecurringDates_every_nth_day (t m : Z) (pattern : string)
    (interval : Z) (endDate : option Date) :
  pattern = "daily" \/ pattern = "weekly" ->
  wfDate (Some t) ->
  effectiveMaxDate (Some t) endDate = Some m -> wfDate (Some m) ->
  generateRecurringDates (Some t) pattern interval endDate
  = everyNthDay (Day t) (stepDays pattern interval)
      (S (Z.to_nat (Z.min ((m - t) / (stepDays pattern interval * msPerDay))
                          1000))).
Proof. apply expansion_closed_form. Qed.

(** Witness for X4: every second week from 2024-01-01 with the default
    horizon gives 27 occurrences, 14 days apart. *)
Lemma generateRecurringDates_every_nth_day_witness :
  generateRecurringDates (Some 1704067200000) "weekly" 2 None
  = everyNthDay 19723 14 27.
Proof.
  apply (generateRecurringDates_every_nth_day 1704067200000 1735689600000
           "weekly" 2 None).
  - right. reflexivity.
  - vm_compute. split; discriminate.
  - vm_compute. reflexivity.
  - vm_compute. split; discriminate.
Defined.

Lemma le_div_iff (k x s : Z) : 0 < s -> (k <= x / s <-> k * s <= x).
Proof.
  intros Hs. split; intros H.
  - pose proof (Z.mul_div_le x s Hs). nia.
  - apply Z.div_le_lower_bound; lia.
Qed.

Lemma stepDays_pos (pattern : string) (interval : Z) :
  1 <= stepDays pattern interval.
Proof.
  pose proof (safeInterval_pos interval). unfold stepDays.
  destruct (String.eqb pattern "weekly"); lia.
Qed.

Lemma In_everyNthDay (d n : Z) (count : nat) (x : Date) :
  In x (everyNthDay d n count) <->
  exists k, 0 <= k < Z.of_nat count /\ x = Some ((d + k * n) * msPerDay).
Proof.
  unfold everyNthDay. rewrite in_map_iff. split.
  - intros (k & <- & Hk). apply in_seq in Hk. exists (Z.of_nat k).
    split; [lia|reflexivity].
  - intros (k & Hk & ->). exists (Z.to_nat k). split.
    + rewrite Z2Nat.id by lia. reflexivity.
    + apply in_seq. lia.
Qed.

(** When a recurring daily or weekly event occurs. *)
Lemma occursOn_daily_weekly (parseISO : string -> Date) (now : Z)
    (event : Event.t) (a m q : Z) :
  Event.recurring event = true ->
  Event.recurrencePattern event = "daily"
    \/ Event.recurrencePattern event = "weekly" ->
  parseISO (Event.date event) = Some a -> wfDate (Some a) ->
  addYears (Some a) 1 = Some m ->
  wfDate (Some q) ->
  (occursOn parseISO now (Some q) event = true <->
   exists k, 0 <= k /\
     Day q = Day a + k * stepDays (Event.recurrencePattern event)
                       (intervalOrOne (Event.recurrenceInterval event)) /\
     a + k * stepDays (Event.recurrencePattern event)
               (intervalOrOne (Event.recurrenceInterval event)) * msPerDay
       <= m).
Proof.
  intros Hr Hp Hparse Ha Hm Hq.
  set (n := stepDays (Event.recurrencePattern event)
              (intervalOrOne (Event.recurrenceInterval event))).
  assert (Hn : 1 <= n) by apply stepDays_pos.
  assert (Hmwf : wfDate (Some m)).
  { rewrite <- Hm. apply addMonths_wf. exact Ha. }
  pose proof (addYears_1 _ _ Hm) as Hyear.
  assert (Hs : 0 < n * msPerDay) by (unfold msPerDay; lia).
  unfold occursOn.
  replace (Event.recurring event
           && negb (String.eqb (Event.recurrencePattern event) "none"))
    with true
    by (rewrite Hr; destruct Hp as [-> | ->]; reflexivity).
  rewrite parseDate_valid by (rewrite Hparse; reflexivity).
  rewrite Hparse. cbn [isValid negb].
  rewrite (expansion_closed_form a m) by assumption.
  fold n. rewrite existsb_exists. split.
  - intros (x & Hin & Hsame).
    apply In_everyNthDay in Hin as (k & Hk & ->).
    assert (Hx : 0 <= (m - a) / (n * msPerDay))
      by (apply Z.div_pos; unfold msPerDay in *; lia).
    assert (Hkle : k * (n * msPerDay) <= m - a) by (apply le_div_iff; lia).
    exists k. split; [lia|]. split; [|lia].
    rewrite isSameDay_Some in Hsame.
    + apply Z.eqb_eq in Hsame. rewrite <- Hsame.
      unfold Day. rewrite Z.div_mul by (unfold msPerDay; lia). reflexivity.
    + cbn [wfDate] in *. pose proof (startOfDay_le a).
      assert (- maxTime <= Day a * msPerDay).
      { pose proof (startOfDay_Some a Ha) as E.
        pose proof (startOfDay_wf (Some a)) as W. rewrite E in W.
        apply W. }
      unfold msPerDay in *. nia.
    + exact Hq.
  - intros (k & Hk & Hday & Hle).
    exists (Some ((Day a + k * n) * msPerDay)). split.
    + apply In_everyNthDay. exists k. split; [|reflexivity].
      assert (k <= (m - a) / (n * msPerDay)) by (apply le_div_iff; lia).
      assert (k <= 1000) by (unfold msPerDay in *; nia).
      lia.
    + rewrite isSameDay_Some.
      * apply Z.eqb_eq. rewrite Hday.
        unfold Day at 1. rewrite Z.div_mul by (unfold msPerDay; lia).
        reflexivity.
      * cbn [wfDate] in *. pose proof (startOfDay_le a).
        assert (- maxTime <= Day a * msPerDay).
        { pose proof (startOfDay_Some a Ha) as E.
          pose proof (startOfDay_wf (Some a)) as W. rewrite E in W.
          apply W. }
        unfold msPerDay in *. nia.
      * exact Hq.
Qed.

(** X5.  A recurring event with the daily or weekly pattern whose stored
    date parses is listed by [getEventsForDate] exactly for the days that
    lie a whole number of steps after the anchor day and whose occurrence
    (anchor time plus that many days) is not later than one year after the
    anchor; a step is the interval (at least 1, at most 365) in days or
    weeks. *)
Theorem getEventsForDate_daily_weekly (parseISO : string -> Date) (now : Z)
    (events : list Event.t) (event : Event.t) (a m q : Z) :
  Event.recurring event = true ->
  Event.recurrencePattern event = "daily"
    \/ Event.recurrencePattern event = "weekly" ->
  parseISO (Event.date event) = Some a -> wfDate (Some a) ->
  addYears (Some a) 1 = Some m ->
  wfDate (Some q) ->
  (In event (getEventsForDate parseISO now events (Some q)) <->
   In event events /\
   exists k, 0 <= k /\
     Day q = Day a + k * stepDays (Event.recurrencePattern event)
                       (intervalOrOne (Event.recurrenceInterval event)) /\
     a + k * stepDays (Event.recurrencePattern event)
               (intervalOrOne (Event.recurrenceInterval event)) * msPerDay
       <= m).
Proof.
  intros Hr Hp Hparse Ha Hm Hq.
  unfold getEventsForDate. cbn [isValid negb]. rewrite filter_In.
  rewrite (occursOn_daily_weekly parseISO now event a m q) by assumption.
  reflexivity.
Qed.

(** Witness for X5: the fortnightly event anchored on 2024-01-01 is listed
    for 2024-01-29, two steps later. *)
Lemma getEventsForDate_daily_weekly_witness :
  In (repeating "w" "2024-01-01" "09:00" "10:00" "weekly" 2)
     (getEventsForDate IsoFormat.parseISO noon_2024_03_05
        [repeating "w" "2024-01-01" "09:00" "10:00" "weekly" 2]
        (Some 1706486400000)).
Proof.
  apply (getEventsForDate_daily_weekly IsoFormat.parseISO noon_2024_03_05
           [repeating "w" "2024-01-01" "09:00" "10:00" "weekly" 2]
           (repeating "w" "2024-01-01" "09:00" "10:00" "weekly" 2)
           1704067200000 1735689600000 1706486400000).
  - reflexivity.
  - right. reflexivity.
  - vm_compute. reflexivity.
  - vm_compute. split; discriminate.
  - vm_compute. reflexivity.
  - vm_compute. split; discriminate.
  - split; [left; reflexivity|].
    exists 2. split; [lia|]. split; vm_compute; [reflexivity|discriminate].
Defined.

Module MonthlyFacts.

(** The exact result of [addMonths]. *)
Lemma addMonths_exact (t n u : Z) :
  n <> 0 -> addMonths (Some t) n = Some u ->
  let k := monthOfDay (Day t) in
  TimeWithinDay u = TimeWithinDay t /\
  monthOfDay (Day u) = k + n /\
  DateFromTime u = Z.min (DateFromTime t) (daysOfMonthIndex (k + n)).
Proof.
  intros Hn H k. rewrite addMonths_unfold in H by assumption. fold k in H.
  destruct (time_split t) as [_ Htw].
  pose proof (DateFromTime_range t) as HD.
  pose proof (monthStart_step (k + n)) as Hstep.
  unfold daysOfMonthIndex.
  destruct (TimeClip _) as [e|] eqn:He in H; [|discriminate].
  apply TimeClip_Some in He as [-> _].
  remember (MakeDate (monthStart (k + n + 1) - 1) (TimeWithinDay t)) as e eqn:Ee.
  assert (HDe : Day e = monthStart (k + n + 1) - 1).
  { rewrite Ee. apply Day_MakeDate. assumption. }
  assert (HTe : TimeWithinDay e = TimeWithinDay t).
  { rewrite Ee. apply TimeWithinDay_MakeDate. assumption. }
  assert (Hke : monthOfDay (Day e) = k + n).
  { apply monthOfDay_unique. rewrite HDe. lia. }
  assert (HDFe : DateFromTime e = monthStart (k + n + 1) - monthStart (k + n)).
  { unfold DateFromTime. rewrite Hke, HDe. lia. }
  rewrite HDFe, Hke in H.
  destruct (Z.geb_spec (DateFromTime t)
              (monthStart (k + n + 1) - monthStart (k + n))) as [Hge|Hlt].
  - injection H as <-. split; [exact HTe|]. split; [exact Hke|].
    rewrite HDFe. lia.
  - apply TimeClip_Some in H as [-> _].
    rewrite TimeWithinDay_MakeDate by assumption.
    assert (Hku : monthOfDay (Day (MakeDate (monthStart (k + n)
                     + DateFromTime t - 1) (TimeWithinDay t))) = k + n).
    { apply monthOfDay_unique. rewrite Day_MakeDate by assumption. lia. }
    split; [reflexivity|]. split; [exact Hku|].
    unfold DateFromTime at 1. rewrite Hku, Day_MakeDate by assumption. lia.
Qed.

Lemma Sorted_snoc {A} (R : A -> A -> Prop) (l : list A) (x y : A) :
  Sorted R (l ++ [x]) -> R x y -> Sorted R ((l ++ [x]) ++ [y]).
Proof.
  intros Hs Hxy. induction l as [|a l IH]; cbn [app] in *.
  - constructor; [constructor; constructor|]. constructor. exact Hxy.
  - inversion Hs as [|? ? Hl Hhd]; subst. constructor; [apply IH; exact Hl|].
    destruct l as [|b l]; cbn [app] in *.
    + inversion Hhd; subst. constructor. assumption.
    + inversion Hhd; subst. constructor. assumption.
Qed.

Lemma midnight_fields (c : Z) :
  Day (Day c * msPerDay) = Day c /\
  DateFromTime (Day c * msPerDay) = DateFromTime c /\
  TimeWithinDay (Day c * msPerDay) = 0.
Proof.
  assert (E : Day (Day c * msPerDay) = Day c).
  { unfold Day at 1. apply Z.div_mul. unfold msPerDay. lia. }
  split; [exact E|]. split.
  - unfold DateFromTime. rewrite E. reflexivity.
  - unfold TimeWithinDay. apply Z.mod_mul. unfold msPerDay. lia.
Qed.

Lemma advance_monthly (si : Z) (d : Date) :
  advance "monthly" si d = Some (addMonths d si).
Proof. reflexivity. Qed.

Lemma whileLoop_monthly (si : Z) (maxDate : Date) (fuel : nat) (st : LoopState) :
  1 <= si ->
  Sorted (monthlyStep si) (dates st) -> cursorIsLast maxDate st ->
  Sorted (monthlyStep si) (dates (whileLoop fuel "monthly" si maxDate st)).
Proof.
  intros Hsi Hs Hc. generalize (conj Hs Hc). clear Hs Hc. revert fuel st.
  apply (whileLoop_ind "monthly" si maxDate
    (fun st => Sorted (monthlyStep si) (dates st) /\ cursorIsLast maxDate st)
    (fun _ fin => Sorted (monthlyStep si) (dates fin))).
  - intros s [Hs _]. exact Hs.
  - intros s [Hs _] _ _. exact Hs.
  - intros s next [Hs Hc] Hcond Ha s'. subst s'.
    unfold cursorIsLast in *. cbn [dates currentDate].
    apply andb_true_iff in Hcond as [Hlt _].
    destruct (currentDate s) as [c|] eqn:Ecur; [|discriminate].
    destruct Hc as [Hwf Hlast].
    assert (Hnext : next = addMonths (Some c) si).
    { rewrite advance_monthly in Ha. congruence. }
    split; [|intros fin Hfin; exact Hfin].
    destruct next as [u|]; [|split; [exact Hs|exact I]].
    symmetry in Hnext.
    pose proof (addMonths_exact c si u ltac:(lia) Hnext) as Hex.
    cbv zeta in Hex. destruct Hex as (_ & Hmonth & Hdate).
    assert (Hu : wfDate (Some u)).
    { rewrite <- Hnext. apply addMonths_wf. exact Hwf. }
    destruct (date_le (Some u) maxDate) eqn:Hle.
    + destruct Hlast as [l Hl].
      { destruct maxDate as [m|]; [|discriminate]. cbn [date_lt date_le] in *.
        apply Z.ltb_lt in Hlt. apply Z.leb_le. lia. }
      rewrite startOfDay_Some by exact Hu.
      split; [|split; [exact Hu|intros _; eexists; reflexivity]].
      rewrite Hl in Hs |- *. apply Sorted_snoc; [exact Hs|].
      exists (Day c * msPerDay), (Day u * msPerDay).
      destruct (midnight_fields c) as (Ec1 & Ec2 & _).
      destruct (midnight_fields u) as (Eu1 & Eu2 & Eu3).
      rewrite Ec1, Ec2, Eu1, Eu2, Hmonth. auto.
    + split; [exact Hs|]. split; [exact Hu|]. intros H. discriminate H.
Qed.

End MonthlyFacts.

Import MonthlyFacts.

(** X6.  Monthly expansion: the first occurrence is the anchor's midnight
    and every later occurrence lies the clamped interval of months after
    the one before it, at midnight, on the same day of the month as the one
    before it, or on the last day of its month when that month is shorter.
    So the day of the month never grows back: after a short month the
    series stays on the earlier day. *)
Theorem generateRecurringDates_monthly (t : Z) (interval : Z)
    (endDate : option Date) :
  wfDate (Some t) ->
  hd_error (generateRecurringDates (Some t) "monthly" interval endDate)
    = Some (Some (Day t * msPerDay)) /\
  Sorted (monthlyStep (safeInterval interval))
    (generateRecurringDates (Some t) "monthly" interval endDate).
Proof.
  intros Hwf.
  split.
  - rewrite generateRecurringDates_valid, runRecurrence_eq.
    destruct (whileLoop_sorted "monthly" (safeInterval interval)
                (effectiveMaxDate (Some t) endDate) (safeInterval_pos interval)
                (Z.to_nat maxIterations) (initialState (Some t)))
      as [_ [tail Htail]].
    + unfold initialState. cbn [dates]. constructor; constructor.
    + unfold behindCursor, initialState. cbn [dates currentDate].
      split; [exact Hwf|]. constructor; [|constructor].
      rewrite startOfDay_Some by exact Hwf. eexists. split; [reflexivity|lia].
    + rewrite Htail. unfold initialState. cbn [dates app hd_error].
      rewrite startOfDay_Some by exact Hwf. reflexivity.
  - rewrite generateRecurringDates_valid, runRecurrence_eq.
    apply whileLoop_monthly.
    + apply safeInterval_pos.
    + unfold initialState. cbn [dates]. constructor; constructor.
    + unfold cursorIsLast, initialState. cbn [currentDate dates].
      split; [exact Hwf|]. intros _. exists [].
      rewrite startOfDay_Some by exact Hwf. reflexivity.
Qed.

(** Witness for X6: monthly from 2024-01-31 with the default horizon. *)
Lemma generateRecurringDates_monthly_witness :
  wfDate (Some 1706659200000) /\
  Sorted (monthlyStep (safeInterval 1))
    (generateRecurringDates (Some 1706659200000) "monthly" 1 None).
Proof.
  assert (Hwf : wfDate (Some 1706659200000)) by (vm_compute; split; discriminate).
  split; [exact Hwf|].
  exact (proj2 (generateRecurringDates_monthly 1706659200000 1 None Hwf)).
Defined.

Example monthly_from_jan_31 :
  map (fun d => match d with
                | Some u => (MonthFromTime u + 1, DateFromTime u)
                | None => (0, 0)
                end)
      (generateRecurringDates (civil 2024 1 31) "monthly" 1 None)
  = [(1, 31); (2, 29); (3, 29); (4, 29); (5, 29); (6, 29); (7, 29); (8, 29);
     (9, 29); (10, 29); (11, 29); (12, 29); (1, 29)].
Proof. vm_compute. reflexivity. Qed.

(** * The month grid and month navigation *)

Module GridFacts.
Import DateFns CalendarGrid.

Lemma setDate_eq (t dt : Z) :
  setDate t dt = TimeClip (t + (dt - DateFromTime t) * msPerDay).
Proof.
  unfold setDate, MakeDay. rewrite year_month. unfold DateFromTime.
  f_equal. destruct (time_split t) as [Ht _]. unfold MakeDate in *. lia.
Qed.

Lemma Day_bounds (t : Z) : Day t * msPerDay <= t < Day t * msPerDay + msPerDay.
Proof. destruct (time_split t) as [Ht Htw]. unfold MakeDate in Ht. lia. Qed.

Lemma Day_midnight (d : Z) : Day (d * msPerDay) = d.
Proof. unfold Day. apply Z.div_mul. unfold msPerDay. lia. Qed.

Lemma Day_end_of_day (d : Z) : Day (d * msPerDay + 86399999) = d.
Proof.
  change (d * msPerDay + 86399999) with (MakeDate d 86399999).
  apply Day_MakeDate. unfold msPerDay. lia.
Qed.

Lemma WeekDay_range (t : Z) : 0 <= WeekDay t <= 6.
Proof. unfold WeekDay. pose proof (Z.mod_pos_bound (Day t + 4) 7). lia. Qed.

Lemma within_wf (b t : Z) : 0 <= b -> within b t -> wfDate (Some t).
Proof. unfold within, wfDate, msPerDay. lia. Qed.

Lemma startOfMonth_eq (t : Z) :
  within 32 t ->
  startOfMonth (Some t) = Some (monthStart (monthOfDay (Day t)) * msPerDay).
Proof.
  intros Hw. unfold startOfMonth. rewrite setDate_eq.
  pose proof (DateFromTime_range t) as HD. pose proof (Day_bounds t) as Hb.
  unfold within in Hw.
  rewrite TimeClip_in_range by (unfold msPerDay in *; lia).
  unfold setHoursZero, MakeDate. rewrite Z.add_0_r, Day_add_days.
  unfold DateFromTime.
  replace (Day t + (1 - (Day t - monthStart (monthOfDay (Day t)) + 1)))
    with (monthStart (monthOfDay (Day t))) by lia.
  apply TimeClip_in_range. unfold DateFromTime in HD. unfold msPerDay in *. lia.
Qed.

Lemma endOfMonth_eq (t : Z) :
  within 32 t ->
  endOfMonth (Some t)
  = Some ((monthStart (monthOfDay (Day t) + 1) - 1) * msPerDay + 86399999).
Proof.
  intros Hw. unfold endOfMonth, setFullYear, MakeDay.
  replace (12 * YearFromTime t + (MonthFromTime t + 1))
    with (monthOfDay (Day t) + 1) by (pose proof (year_month t); lia).
  pose proof (monthOfDay_spec (Day t)) as Hs.
  pose proof (monthStart_step (monthOfDay (Day t))) as Hstep.
  pose proof (Day_bounds t) as Hb. destruct (time_split t) as [_ Htw].
  unfold within in Hw.
  rewrite TimeClip_in_range by (unfold MakeDate, msPerDay in *; lia).
  unfold setHoursEnd. rewrite Day_MakeDate by exact Htw.
  unfold MakeDate.
  replace (monthStart (monthOfDay (Day t) + 1) + 0 - 1)
    with (monthStart (monthOfDay (Day t) + 1) - 1) by lia.
  apply TimeClip_in_range. unfold msPerDay in *. lia.
Qed.

Lemma startOfWeek_eq (x : Z) :
  within 8 x ->
  startOfWeek (Some x) = Some ((Day x - WeekDay x) * msPerDay).
Proof.
  intros Hw. unfold startOfWeek, weekStartsOn. cbv zeta.
  pose proof (WeekDay_range x) as Hwd. pose proof (Day_bounds x) as Hb.
  replace (WeekDay x <? 0) with false by (symmetry; apply Z.ltb_ge; lia).
  rewrite setDate_eq. unfold within in Hw.
  rewrite TimeClip_in_range by (unfold msPerDay in *; lia).
  unfold setHoursZero, MakeDate. rewrite Z.add_0_r, Day_add_days.
  replace (Day x + (DateFromTime x - (0 + WeekDay x - 0) - DateFromTime x))
    with (Day x - WeekDay x) by lia.
  apply TimeClip_in_range. unfold msPerDay in *. lia.
Qed.

Lemma endOfWeek_eq (x : Z) :
  within 8 x ->
  endOfWeek (Some x) = Some ((Day x + 6 - WeekDay x) * msPerDay + 86399999).
Proof.
  intros Hw. unfold endOfWeek, weekStartsOn. cbv zeta.
  pose proof (WeekDay_range x) as Hwd. pose proof (Day_bounds x) as Hb.
  replace (WeekDay x <? 0) with false by (symmetry; apply Z.ltb_ge; lia).
  rewrite setDate_eq. unfold within in Hw.
  rewrite TimeClip_in_range by (unfold msPerDay in *; lia).
  unfold setHoursEnd, MakeDate. rewrite Day_add_days.
  replace (Day x + (DateFromTime x + (0 + 6 - (WeekDay x - 0)) - DateFromTime x))
    with (Day x + 6 - WeekDay x) by lia.
  apply TimeClip_in_range. unfold msPerDay in *. lia.
Qed.

Lemma everyNthDay_cons (d n : Z) (count : nat) :
  everyNthDay d n (S count)
  = Some (d * msPerDay) :: everyNthDay (d + n) n count.
Proof.
  unfold everyNthDay. cbn [seq map]. f_equal; [f_equal; lia|].
  rewrite (map_seq_shift _ 0). apply map_ext. intros k. f_equal. lia.
Qed.

(** The loop of [getCalendarDays] appends the midnights from the cursor's
    day to the day of [endDate]. *)
Lemma calendarLoop_days (e : Z) (count : nat) :
  e <= maxTime ->
  forall (fuel : nat) (d : Z) (days : list Date),
    - maxTime <= d * msPerDay ->
    count = Z.to_nat (Day e - d + 1) -> (count <= fuel)%nat ->
    calendarLoop fuel (Some e) (TimeClip (d * msPerDay)) days
    = (days ++ everyNthDay d 1 count)%list.
Proof.
  intros He. induction count as [|count IH]; intros fuel d days Hd Hcount Hfuel.
  - assert (Hgt : e < d * msPerDay).
    { pose proof (Day_bounds e). unfold msPerDay in *. lia. }
    assert (Hle : date_le (TimeClip (d * msPerDay)) (Some e) = false).
    { destruct (TimeClip (d * msPerDay)) as [x|] eqn:E; [|reflexivity].
      apply TimeClip_Some in E as [-> _]. apply Z.leb_gt. exact Hgt. }
    destruct fuel; cbn [calendarLoop]; rewrite Hle; cbn [everyNthDay seq map];
      symmetry; apply app_nil_r.
  - assert (Hle : d * msPerDay <= e).
    { pose proof (Day_bounds e). unfold msPerDay in *. lia. }
    rewrite TimeClip_in_range by lia.
    destruct fuel as [|fuel]; [lia|]. cbn [calendarLoop].
    replace (date_le (Some (d * msPerDay)) (Some e)) with true
      by (symmetry; apply Z.leb_le; exact Hle).
    rewrite addDays_eq by lia.
    replace (d * msPerDay + 1 * msPerDay) with ((d + 1) * msPerDay) by lia.
    rewrite IH; [|unfold msPerDay in *; lia|lia|lia].
    rewrite everyNthDay_cons, <- app_assoc. reflexivity.
Qed.

Lemma getCalendarDays_eq (t : Z) :
  within 62 t ->
  getCalendarDays (Some t)
  = everyNthDay (gridFirst (monthOfDay (Day t))) 1
      (Z.to_nat (gridLast (monthOfDay (Day t))
                 - gridFirst (monthOfDay (Day t)) + 1)).
Proof.
  intros Hw. unfold getCalendarDays, gridFirst, gridLast. cbn [isValid negb].
  remember (monthOfDay (Day t)) as k eqn:Ek.
  pose proof (monthOfDay_spec (Day t)) as Hs. rewrite <- Ek in Hs.
  pose proof (monthStart_step k) as Hstep.
  pose proof (Day_bounds t) as Hb.
  pose proof (Z.mod_pos_bound (monthStart k + 4) 7 ltac:(lia)) as Hm1.
  pose proof (Z.mod_pos_bound (monthStart (k + 1) - 1 + 4) 7 ltac:(lia)) as Hm2.
  unfold within in Hw.
  rewrite startOfMonth_eq, endOfMonth_eq by (unfold within, msPerDay in *; lia).
  rewrite <- Ek.
  rewrite startOfWeek_eq by (unfold within, msPerDay in *; lia).
  rewrite endOfWeek_eq by (unfold within, msPerDay in *; lia).
  unfold WeekDay. rewrite Day_midnight, Day_end_of_day.
  remember (monthStart k - (monthStart k + 4) mod 7) as first eqn:Ef.
  remember (monthStart (k + 1) - 1 + 6 - (monthStart (k + 1) - 1 + 4) mod 7)
    as last eqn:El.
  unfold daySpan. rewrite Day_midnight, Day_end_of_day.
  rewrite <- (TimeClip_in_range (first * msPerDay))
    by (unfold msPerDay in *; lia).
  rewrite (calendarLoop_days _ (Z.to_nat (last - first + 1)));
    [reflexivity|unfold msPerDay in *; lia|unfold msPerDay in *; lia| |lia].
  rewrite Day_end_of_day. reflexivity.
Qed.

End GridFacts.

Import DateFns CalendarGrid GridFacts.

Lemma gridFirst_sunday (k : Z) :
  (gridFirst k + 4) mod 7 = 0 /\ monthStart k - 6 <= gridFirst k <= monthStart k.
Proof. unfold gridFirst. Z.div_mod_to_equations. lia. Qed.

Lemma gridLast_saturday (k : Z) :
  (gridLast k + 4) mod 7 = 6 /\
  monthStart (k + 1) - 1 <= gridLast k <= monthStart (k + 1) + 5.
Proof. unfold gridLast. Z.div_mod_to_equations. lia. Qed.

(** X7.  For a valid date (not within two months of the ends of the range
    of time values) [getCalendarDays] returns whole weeks: 4, 5 or 6 weeks of
    consecutive days, each at midnight, the first of them a Sunday. *)
Theorem getCalendarDays_whole_weeks (t : Z) :
  within 62 t ->
  exists (first : Z) (weeks : nat),
    getCalendarDays (Some t) = everyNthDay first 1 (7 * weeks) /\
    (4 <= weeks <= 6)%nat /\
    WeekDay (first * msPerDay) = 0.
Proof.
  intros Hw. rewrite getCalendarDays_eq by exact Hw.
  set (k := monthOfDay (Day t)).
  destruct (gridFirst_sunday k) as [Hf1 Hf2].
  destruct (gridLast_saturday k) as [Hl1 Hl2].
  pose proof (monthStart_step k) as Hstep.
  exists (gridFirst k), (Z.to_nat ((gridLast k - gridFirst k + 1) / 7)).
  assert (Hdiv : gridLast k - gridFirst k + 1
                 = 7 * ((gridLast k - gridFirst k + 1) / 7)).
  { revert Hf1 Hl1. generalize (gridFirst k) (gridLast k). intros f l.
    Z.div_mod_to_equations. lia. }
  split; [|split].
  - f_equal. lia.
  - lia.
  - unfold WeekDay. rewrite Day_midnight. exact Hf1.
Qed.

(** Witness for X7: the grid of March 2024 starts on Sunday 2024-02-25 and
    has six weeks. *)
Lemma getCalendarDays_whole_weeks_witness :
  within 62 1709640000000 /\
  exists (first : Z) (weeks : nat),
    getCalendarDays (Some 1709640000000) = everyNthDay first 1 (7 * weeks) /\
    (4 <= weeks <= 6)%nat /\
    WeekDay (first * msPerDay) = 0.
Proof.
  assert (Hw : within 62 1709640000000) by (vm_compute; split; discriminate).
  split; [exact Hw|]. exact (getCalendarDays_whole_weeks 1709640000000 Hw).
Defined.

Lemma isSameMonth_iff (a b : Z) :
  isSameMonth (Some a) (Some b) = true <->
  monthOfDay (Day a) = monthOfDay (Day b).
Proof.
  unfold isSameMonth. rewrite andb_true_iff, !Z.eqb_eq.
  pose proof (year_month a). pose proof (year_month b).
  unfold YearFromTime, MonthFromTime in *. split.
  - intros [Hy Hm]. lia.
  - intros ->. split; reflexivity.
Qed.

Lemma monthOfDay_iff (d k : Z) :
  monthOfDay d = k <-> monthStart k <= d < monthStart (k + 1).
Proof.
  split.
  - intros <-. apply monthOfDay_spec.
  - apply monthOfDay_unique.
Qed.

Lemma count_in_window (P : Date -> bool) (lo hi : Z) (count : nat) :
  forall d : Z,
    (forall x, d <= x < d + Z.of_nat count ->
       P (Some (x * msPerDay)) = (lo <=? x) && (x <? hi)) ->
    List.length (filter P (everyNthDay d 1 count))
    = Z.to_nat (Z.min hi (d + Z.of_nat count) - Z.max lo d).
Proof.
  induction count as [|count IH]; intros d HP.
  - cbn [everyNthDay seq map filter List.length]. lia.
  - rewrite everyNthDay_cons. cbn [filter].
    rewrite HP by lia.
    assert (Hrest := IH (d + 1) ltac:(intros x Hx; apply HP; lia)).
    destruct (Z.leb_spec lo d), (Z.ltb_spec d hi); cbn [andb List.length];
      rewrite Hrest; lia.
Qed.

(** X8.  The grid covers the month of its argument: every day of that month
    is in it, it reaches at most 6 days into the month before and into the
    month after, and the cells that [isCurrentMonth] marks as belonging to
    the month are as many as the month has days. *)
Theorem getCalendarDays_covers_month (t : Z) :
  within 62 t ->
  let k := monthOfDay (Day t) in
  (forall d, monthStart k <= d < monthStart (k + 1) ->
     In (Some (d * msPerDay)) (getCalendarDays (Some t))) /\
  (forall x, In x (getCalendarDays (Some t)) ->
     exists d, x = Some (d * msPerDay) /\
               monthStart k - 6 <= d <= monthStart (k + 1) + 5) /\
  Z.of_nat (List.length (filter (fun x => isCurrentMonth x (Some t))
                                (getCalendarDays (Some t))))
    = daysOfMonthIndex k.
Proof.
  intros Hw k. rewrite getCalendarDays_eq by exact Hw. fold k.
  destruct (gridFirst_sunday k) as [_ Hf].
  destruct (gridLast_saturday k) as [_ Hl].
  pose proof (monthStart_step k) as Hstep.
  split; [|split].
  - intros d Hd. apply In_everyNthDay. exists (d - gridFirst k).
    split; [lia|]. f_equal. lia.
  - intros x Hx. apply In_everyNthDay in Hx as (j & Hj & ->).
    exists (gridFirst k + j * 1). split; [reflexivity|lia].
  - rewrite (count_in_window _ (monthStart k) (monthStart (k + 1))).
    + unfold daysOfMonthIndex. lia.
    + intros x Hx. unfold isCurrentMonth. cbn [isValid andb].
      destruct (isSameMonth (Some (x * msPerDay)) (Some t)) eqn:E.
      * apply isSameMonth_iff in E. rewrite Day_midnight in E. fold k in E.
        apply monthOfDay_iff in E. symmetry. apply andb_true_iff.
        split; [apply Z.leb_le|apply Z.ltb_lt]; lia.
      * symmetry. apply not_true_is_false. intros Hc.
        apply andb_true_iff in Hc as [H1 H2].
        apply Z.leb_le in H1. apply Z.ltb_lt in H2.
        assert (Hk : monthOfDay x = k) by (apply monthOfDay_iff; lia).
        assert (Ht : isSameMonth (Some (x * msPerDay)) (Some t) = true).
        { apply isSameMonth_iff. rewrite Day_midnight. exact Hk. }
        congruence.
Qed.

(** Witness for X8: March 2024. *)
Lemma getCalendarDays_covers_month_witness :
  within 62 1709640000000 /\
  Z.of_nat (List.length (filter (fun x => isCurrentMonth x (Some 1709640000000))
                                (getCalendarDays (Some 1709640000000))))
    = daysOfMonthIndex (monthOfDay (Day 1709640000000)).
Proof.
  assert (Hw : within 62 1709640000000) by (vm_compute; split; discriminate).
  split; [exact Hw|].
  exact (proj2 (proj2 (getCalendarDays_covers_month 1709640000000 Hw))).
Defined.

Example march_2024_grid :
  List.length (getCalendarDays (civil 2024 3 5)) = 42%nat /\
  hd_error (getCalendarDays (civil 2024 3 5)) = Some (civil 2024 2 25) /\
  last (getCalendarDays (civil 2024 3 5)) None = civil 2024 4 6 /\
  getCalendarDays None = [].
Proof. repeat split; vm_compute; reflexivity. Qed.

(** ** Month navigation *)

Lemma same_day_same_time (a b : Z) :
  Day a = Day b -> TimeWithinDay a = TimeWithinDay b -> a = b.
Proof.
  intros Hd Ht. destruct (time_split a) as [Ea _].
  destruct (time_split b) as [Eb _]. rewrite Ea, Eb, Hd, Ht. reflexivity.
Qed.

Lemma day_of_fields (t : Z) :
  Day t = monthStart (monthOfDay (Day t)) + DateFromTime t - 1.
Proof. unfold DateFromTime. lia. Qed.

Lemma getNextMonth_valid (now t : Z) :
  getNextMonth now (Some t) = addMonths (Some t) 1.
Proof. reflexivity. Qed.

Lemma getPreviousMonth_valid (now t : Z) :
  getPreviousMonth now (Some t) = addMonths (Some t) (-1).
Proof. reflexivity. Qed.

(** X9.  [getNextMonth] and [getPreviousMonth] move a valid date to the
    month after and the month before, keeping the time of day and the day
    of the month, except that a day the target month does not have becomes
    the last day of that month; for an invalid date they return the current
    time. *)
Theorem month_navigation (now t u : Z) :
  (getNextMonth now (Some t) = Some u ->
   monthOfDay (Day u) = monthOfDay (Day t) + 1 /\
   DateFromTime u
     = Z.min (DateFromTime t) (daysOfMonthIndex (monthOfDay (Day t) + 1)) /\
   TimeWithinDay u = TimeWithinDay t) /\
  (getPreviousMonth now (Some t) = Some u ->
   monthOfDay (Day u) = monthOfDay (Day t) - 1 /\
   DateFromTime u
     = Z.min (DateFromTime t) (daysOfMonthIndex (monthOfDay (Day t) - 1)) /\
   TimeWithinDay u = TimeWithinDay t) /\
  getNextMonth now None = Some now /\
  getPreviousMonth now None = Some now.
Proof.
  split; [|split; [|split; reflexivity]].
  - rewrite getNextMonth_valid. intros H.
    apply addMonths_exact in H; [|lia]. cbv zeta in H.
    destruct H as (Ht & Hm & Hd). auto.
  - rewrite getPreviousMonth_valid. intros H.
    apply addMonths_exact in H; [|lia]. cbv zeta in H.
    replace (monthOfDay (Day t) + -1) with (monthOfDay (Day t) - 1) in H
      by lia.
    destruct H as (Ht & Hm & Hd). auto.
Qed.

(** Witness for X9: from 2024-01-31 to 2024-02-29, and from 2024-03-31 back
    to 2024-02-29. *)
Lemma month_navigation_witness :
  DateFromTime 1709164800000
    = Z.min (DateFromTime 1706659200000)
            (daysOfMonthIndex (monthOfDay (Day 1706659200000) + 1)) /\
  DateFromTime 1709164800000
    = Z.min (DateFromTime 1711843200000)
            (daysOfMonthIndex (monthOfDay (Day 1711843200000) - 1)).
Proof.
  split.
  - exact (proj1 (proj2 (proj1 (month_navigation 0 1706659200000 1709164800000)
                           ltac:(vm_compute; reflexivity)))).
  - exact (proj1 (proj2 (proj1 (proj2
             (month_navigation 0 1711843200000 1709164800000))
                           ltac:(vm_compute; reflexivity)))).
Defined.

(** X10.  Going to the next month and back returns to the month one started
    in, at the same time of day, on a day of the month that is not later
    than the original one, and to exactly the original date when its day of
    the month is at most 28. *)
Theorem next_then_previous_month (now t u v : Z) :
  getNextMonth now (Some t) = Some u ->
  getPreviousMonth now (Some u) = Some v ->
  isCurrentMonth (Some v) (Some t) = true /\
  DateFromTime v <= DateFromTime t /\
  TimeWithinDay v = TimeWithinDay t /\
  (DateFromTime t <= 28 -> v = t).
Proof.
  intros Hn Hp.
  rewrite getNextMonth_valid in Hn. rewrite getPreviousMonth_valid in Hp.
  apply addMonths_exact in Hn; [|lia]. apply addMonths_exact in Hp; [|lia].
  cbv zeta in Hn, Hp.
  destruct Hn as (Htu & Hmu & Hdu). destruct Hp as (Htv & Hmv & Hdv).
  assert (Hk : monthOfDay (Day v) = monthOfDay (Day t)) by lia.
  pose proof (monthStart_step (monthOfDay (Day t))) as Hs0.
  pose proof (monthStart_step (monthOfDay (Day t) + 1)) as Hs1.
  rewrite Hmu in Hdv.
  replace (monthOfDay (Day t) + 1 + -1) with (monthOfDay (Day t)) in Hdv by lia.
  unfold daysOfMonthIndex in *.
  split; [|split; [lia|split; [congruence|]]].
  - unfold isCurrentMonth. cbn [isValid andb]. apply isSameMonth_iff. exact Hk.
  - intros H28. apply same_day_same_time; [|congruence].
    rewrite (day_of_fields v), (day_of_fields t), Hk. lia.
Qed.

(** Witness for X10: 2024-01-15 10:30. *)
Lemma next_then_previous_month_witness :
  getNextMonth 0 (Some 1705314600000) = Some 1707993000000 /\
  getPreviousMonth 0 (Some 1707993000000) = Some 1705314600000 /\
  isCurrentMonth (Some 1705314600000) (Some 1705314600000) = true.
Proof.
  assert (Hn : getNextMonth 0 (Some 1705314600000) = Some 1707993000000)
    by (vm_compute; reflexivity).
  assert (Hp : getPreviousMonth 0 (Some 1707993000000) = Some 1705314600000)
    by (vm_compute; reflexivity).
  split; [exact Hn|]. split; [exact Hp|].
  exact (proj1 (next_then_previous_month 0 1705314600000 1707993000000
                  1705314600000 Hn Hp)).
Defined.

Example january_31_does_not_come_back :
  getPreviousMonth 0 (getNextMonth 0 (civil 2024 1 31)) = civil 2024 1 29.
Proof. vm_compute. reflexivity. Qed.

(** X11.  [isSameDateDay] holds exactly when both dates are valid and agree
    on year, month and day of the month; the time of day plays no role.
    [isDateToday] is that test against the clock. *)
Theorem isSameDateDay_fields (a b now : Z) :
  wfDate (Some a) -> wfDate (Some b) -> wfDate (Some now) ->
  (isSameDateDay (Some a) (Some b) = true <->
   YearFromTime a = YearFromTime b /\
   MonthFromTime a = MonthFromTime b /\
   DateFromTime a = DateFromTime b) /\
  isDateToday now (Some a) = isSameDateDay (Some a) (Some now) /\
  isSameDateDay None (Some b) = false /\
  isSameDateDay (Some a) None = false /\
  isDateToday now None = false.
Proof.
  intros Ha Hb Hn.
  split; [|split; [reflexivity|split; [reflexivity|split; reflexivity]]].
  unfold isSameDateDay. cbn [isValid andb].
  rewrite isSameDay_Some by assumption. rewrite Z.eqb_eq.
  unfold YearFromTime, MonthFromTime. split.
  - intros E. unfold DateFromTime. rewrite E. auto.
  - intros (Hy & Hm & Hd).
    assert (Hk : monthOfDay (Day a) = monthOfDay (Day b)).
    { rewrite (Z.div_mod (monthOfDay (Day a)) 12) by lia.
      rewrite (Z.div_mod (monthOfDay (Day b)) 12) by lia.
      rewrite Hy, Hm. reflexivity. }
    rewrite (day_of_fields a), (day_of_fields b), Hk, Hd. reflexivity.
Qed.

(** Witness for X11: 2024-03-05 at midnight and at noon. *)
Lemma isSameDateDay_fields_witness :
  isSameDateDay (Some 1709596800000) (Some noon_2024_03_05) = true.
Proof.
  apply (proj1 (isSameDateDay_fields 1709596800000 noon_2024_03_05 0
           ltac:(vm_compute; split; discriminate)
           ltac:(vm_compute; split; discriminate)
           ltac:(vm_compute; split; discriminate))).
  vm_compute. repeat split.
Defined.

(** * Stored dates: formatting and parsing *)

Module FormatFacts.
Import DateFormat.

Lemma fourDigits_ok_all : checkBelow 10000 fourDigits_ok = true.
Proof. vm_compute. reflexivity. Qed.

Lemma twoDigits_ok_all : checkBelow 100 twoDigits_ok = true.
Proof. vm_compute. reflexivity. Qed.

Lemma fourDigits (n : Z) :
  0 <= n < 10000 ->
  exists a b c d,
    list_ascii_of_string (addLeadingZeros n 4) = [a; b; c; d] /\
    IsoFormat.num4 a b c d = Some n.
Proof.
  intros Hn. pose proof (checkBelow_sound _ _ fourDigits_ok_all n Hn) as H.
  unfold fourDigits_ok in H.
  destruct (list_ascii_of_string (addLeadingZeros n 4))
    as [|a [|b [|c [|d [|? ?]]]]]; try discriminate H.
  destruct (IsoFormat.num4 a b c d) as [v|] eqn:E; [|discriminate H].
  apply Z.eqb_eq in H. subst v. exists a, b, c, d. split; [reflexivity|exact E].
Qed.

Lemma twoDigits (n : Z) :
  0 <= n < 100 ->
  exists a b,
    list_ascii_of_string (addLeadingZeros n 2) = [a; b] /\
    IsoFormat.num2 a b = Some n.
Proof.
  intros Hn. pose proof (checkBelow_sound _ _ twoDigits_ok_all n Hn) as H.
  unfold twoDigits_ok in H.
  destruct (list_ascii_of_string (addLeadingZeros n 2))
    as [|a [|b [|? ?]]]; try discriminate H.
  destruct (IsoFormat.num2 a b) as [v|] eqn:E; [|discriminate H].
  apply Z.eqb_eq in H. subst v. exists a, b. split; [reflexivity|exact E].
Qed.

Lemma list_ascii_of_string_app (s1 s2 : string) :
  list_ascii_of_string (s1 ++ s2)
  = (list_ascii_of_string s1 ++ list_ascii_of_string s2)%list.
Proof.
  induction s1 as [|c s1 IH]; [reflexivity|].
  cbn [String.append list_ascii_of_string app]. rewrite IH. reflexivity.
Qed.

(** The characters of a formatted date. *)
Lemma format_chars (t : Z) :
  1 <= YearFromTime t <= 9999 ->
  exists y1 y2 y3 y4 m1 m2 d1 d2,
    list_ascii_of_string (format_yyyy_MM_dd t)
    = [y1; y2; y3; y4; "-"%char; m1; m2; "-"%char; d1; d2] /\
    IsoFormat.num4 y1 y2 y3 y4 = Some (YearFromTime t) /\
    IsoFormat.num2 m1 m2 = Some (MonthFromTime t + 1) /\
    IsoFormat.num2 d1 d2 = Some (DateFromTime t).
Proof.
  intros Hy.
  pose proof (DateFromTime_range t) as HD.
  assert (HM : 0 <= MonthFromTime t < 12)
    by (unfold MonthFromTime; apply Z.mod_pos_bound; lia).
  destruct (fourDigits (YearFromTime t) ltac:(lia)) as (y1 & y2 & y3 & y4 & Ey & Ny).
  destruct (twoDigits (MonthFromTime t + 1) ltac:(lia)) as (m1 & m2 & Em & Nm).
  destruct (twoDigits (DateFromTime t) ltac:(lia)) as (d1 & d2 & Ed & Nd).
  exists y1, y2, y3, y4, m1, m2, d1, d2.
  split; [|auto].
  unfold format_yyyy_MM_dd, format_yyyy, format_MM, format_dd. cbv zeta.
  replace (0 <? YearFromTime t) with true by (symmetry; apply Z.ltb_lt; lia).
  rewrite !list_ascii_of_string_app, Ey, Em, Ed. reflexivity.
Qed.

(** Parsing a formatted date gives the midnight of its day. *)
Lemma parseISO_format (t : Z) :
  wfDate (Some t) -> 1 <= YearFromTime t <= 9999 ->
  IsoFormat.parseISO (format_yyyy_MM_dd t) = Some (Day t * msPerDay).
Proof.
  intros Hwf Hy.
  destruct (format_chars t Hy)
    as (y1 & y2 & y3 & y4 & m1 & m2 & d1 & d2 & Ec & Ny & Nm & Nd).
  unfold IsoFormat.parseISO, IsoFormat.readYMD. rewrite Ec, Ny, Nm, Nd.
  assert (Hk : 12 * YearFromTime t + (MonthFromTime t + 1) - 1
               = monthOfDay (Day t)) by (pose proof (year_month t); lia).
  pose proof (monthOfDay_spec (Day t)) as Hs.
  pose proof (DateFromTime_range t) as HD.
  assert (HM : 0 <= MonthFromTime t < 12)
    by (unfold MonthFromTime; apply Z.mod_pos_bound; lia).
  assert (Hvalid : IsoFormat.validYMD (YearFromTime t) (MonthFromTime t + 1)
                     (DateFromTime t) = true).
  { unfold IsoFormat.validYMD, daysInMonth. rewrite Hk.
    replace (12 * YearFromTime t + (MonthFromTime t + 1))
      with (monthOfDay (Day t) + 1) by lia.
    rewrite !andb_true_iff, !Z.leb_le. unfold DateFromTime in *. lia. }
  rewrite Hvalid.
  replace (IsoFormat.isDash "-") with true by reflexivity. cbn [andb].
  unfold civil, MakeDay, MakeDate.
  replace (12 * YearFromTime t + (MonthFromTime t + 1 - 1))
    with (monthOfDay (Day t)) by lia.
  rewrite Z.add_0_r.
  replace (monthStart (monthOfDay (Day t)) + DateFromTime t - 1) with (Day t)
    by (unfold DateFromTime; lia).
  rewrite <- startOfDay_Some by exact Hwf.
  cbn [startOfDay]. unfold setHoursZero, MakeDate. rewrite Z.add_0_r.
  reflexivity.
Qed.

End FormatFacts.

Import DateFormat CalendarState FormatFacts.



(** * The event list of Calendar.jsx *)

Lemma withId_id (e : Event.t) (i : option string) : Event.id (withId e i) = i.
Proof. reflexivity. Qed.

Lemma id_eqb_false (a b : option string) : id_eqb a b = false <-> a <> b.
Proof.
  rewrite <- id_eqb_eq. destruct (id_eqb a b); split; congruence.
Qed.

Lemma map_id_replace (target : option string) (replacement : Event.t)
    (l : list Event.t) :
  Event.id replacement = target ->
  map Event.id
      (map (fun e => if id_eqb (Event.id e) target then replacement else e) l)
  = map Event.id l.
Proof.
  intros Hr. rewrite map_map. apply map_ext. intros e.
  destruct (id_eqb (Event.id e) target) eqn:E; [|reflexivity].
  apply id_eqb_eq in E. congruence.
Qed.

Lemma handleEventDrop_ids (format : Z -> string -> string)
    (eventId : option string) (newDate : Z) (events : list Event.t) :
  map Event.id (handleEventDrop format eventId newDate events)
  = map Event.id events.
Proof.
  unfold handleEventDrop.
  destruct (find _ events) as [event|] eqn:Ef; [|reflexivity].
  apply find_some in Ef as [_ Hid]. apply id_eqb_eq in Hid.
  apply map_id_replace. exact Hid.
Qed.

(** Deleting keeps only ids that were stored, each once. *)
Lemma handleDeleteEvent_unique (eventId : option string) (events : list Event.t) :
  NoDup (map Event.id events) ->
  NoDup (map Event.id (handleDeleteEvent eventId events)).
Proof.
  unfold handleDeleteEvent. induction events as [|e rest IH]; intros Hnd.
  - constructor.
  - cbn [map] in Hnd. apply NoDup_cons_iff in Hnd as [Hfresh Hrest].
    cbn [filter]. destruct (negb (id_eqb (Event.id e) eventId)).
    + cbn [map]. apply NoDup_cons; [|exact (IH Hrest)].
      intros Hin. apply Hfresh.
      apply in_map_iff in Hin as (x & Hx & Hxin).
      apply filter_In in Hxin as [Hxin _].
      rewrite <- Hx. apply in_map. exact Hxin.
    + exact (IH Hrest).
Qed.

(** X13.  The updates of the event list keep the ids unique: editing and
    dropping leave the sequence of ids as it is, deleting removes ids only,
    and adding appends the new id, which keeps the ids unique when the new
    id is not in use. *)
Theorem event_updates_keep_ids_unique (format : Z -> string -> string)
    (eventId : option string) (editing eventData : Event.t) (newId : string)
    (newDate : Z) (events : list Event.t) :
  map Event.id (handleSaveEvent (Some editing) newId eventData events)
    = map Event.id events /\
  map Event.id (handleEventDrop format eventId newDate events)
    = map Event.id events /\
  map Event.id (handleSaveEvent None newId eventData events)
    = (map Event.id events ++ [Some newId])%list /\
  (NoDup (map Event.id events) ->
   NoDup (map Event.id (handleDeleteEvent eventId events)) /\
   NoDup (map Event.id (handleSaveEvent (Some editing) newId eventData events)) /\
   NoDup (map Event.id (handleEventDrop format eventId newDate events)) /\
   (~ In (Some newId) (map Event.id events) ->
    NoDup (map Event.id (handleSaveEvent None newId eventData events)))).
Proof.
  assert (Hedit : map Event.id
                    (handleSaveEvent (Some editing) newId eventData events)
                  = map Event.id events).
  { unfold handleSaveEvent. apply map_id_replace. reflexivity. }
  assert (Hadd : map Event.id (handleSaveEvent None newId eventData events)
                 = (map Event.id events ++ [Some newId])%list).
  { unfold handleSaveEvent. rewrite map_app. reflexivity. }
  split; [exact Hedit|]. split; [apply handleEventDrop_ids|].
  split; [exact Hadd|].
  intros Hnd. split; [|split; [|split]].
  - apply handleDeleteEvent_unique. exact Hnd.
  - rewrite Hedit. exact Hnd.
  - rewrite handleEventDrop_ids. exact Hnd.
  - intros Hfresh. rewrite Hadd. apply NoDup_app.
    + exact Hnd.
    + constructor; [intros []|constructor].
    + intros x Hx [<-|[]]. contradiction.
Qed.

(** Witness for X13: two stored events, a new one with a fresh id. *)
Lemma event_updates_keep_ids_unique_witness :
  NoDup (map Event.id [timed "a" "2024-03-05" "09:00" "10:00";
                       timed "b" "2024-03-06" "09:00" "10:00"]) /\
  NoDup (map Event.id
           (handleSaveEvent None "c" (timed "" "2024-03-07" "09:00" "10:00")
              [timed "a" "2024-03-05" "09:00" "10:00";
               timed "b" "2024-03-06" "09:00" "10:00"])).
Proof.
  assert (Hnd : NoDup (map Event.id [timed "a" "2024-03-05" "09:00" "10:00";
                                     timed "b" "2024-03-06" "09:00" "10:00"])).
  { cbn [map timed Event.id]. constructor.
    - intros [H|[]]. discriminate H.
    - constructor; [intros []|constructor]. }
  split; [exact Hnd|].
  destruct (event_updates_keep_ids_unique (fun u _ => format_yyyy_MM_dd u)
              None (timed "a" "" "" "") (timed "" "2024-03-07" "09:00" "10:00")
              "c" 0
              [timed "a" "2024-03-05" "09:00" "10:00";
               timed "b" "2024-03-06" "09:00" "10:00"])
    as (_ & _ & _ & Hunique).
  destruct (Hunique Hnd) as (_ & _ & _ & Hadd). apply Hadd.
  cbn [map timed Event.id]. intros [H|[H|[]]]; discriminate H.
Defined.

(** Looking an event up by its id, as [events.find(e => e.id === id)]. *)
Lemma find_map_replace (target other : option string) (replacement : Event.t)
    (l : list Event.t) :
  Event.id replacement = target ->
  find (fun e => id_eqb (Event.id e) other)
       (map (fun e => if id_eqb (Event.id e) target then replacement else e) l)
  = if id_eqb target other
    then match find (fun e => id_eqb (Event.id e) target) l with
         | Some _ => Some replacement
         | None => None
         end
    else find (fun e => id_eqb (Event.id e) other) l.
Proof.
  intros Hr. induction l as [|e l IH]; cbn [map find].
  - destruct (id_eqb target other); reflexivity.
  - destruct (id_eqb (Event.id e) target) eqn:Et.
    + apply id_eqb_eq in Et. rewrite Hr, Et.
      destruct (id_eqb target other); [reflexivity|exact IH].
    + destruct (id_eqb (Event.id e) other) eqn:Eo.
      * destruct (id_eqb target other) eqn:Eto; [|reflexivity].
        apply id_eqb_eq in Eo. apply id_eqb_eq in Eto.
        apply id_eqb_false in Et. congruence.
      * rewrite IH. reflexivity.
Qed.

(** X14.  Editing and deleting act on the event with the given id only:
    after an edit, looking up the edited id gives the form data under the
    old id (when the id is stored at all) and looking up any other id gives
    what it gave before; after a deletion the id is not found any more,
    other ids are found as before, and deleting again changes nothing. *)
Theorem edit_and_delete_by_id (editing eventData : Event.t) (newId : string)
    (other : option string) (events : list Event.t) :
  (In (Event.id editing) (map Event.id events) ->
   find (fun e => id_eqb (Event.id e) (Event.id editing))
        (handleSaveEvent (Some editing) newId eventData events)
   = Some (withId eventData (Event.id editing))) /\
  (other <> Event.id editing ->
   find (fun e => id_eqb (Event.id e) other)
        (handleSaveEvent (Some editing) newId eventData events)
   = find (fun e => id_eqb (Event.id e) other) events) /\
  find (fun e => id_eqb (Event.id e) (Event.id editing))
       (handleDeleteEvent (Event.id editing) events) = None /\
  (other <> Event.id editing ->
   find (fun e => id_eqb (Event.id e) other)
        (handleDeleteEvent (Event.id editing) events)
   = find (fun e => id_eqb (Event.id e) other) events) /\
  handleDeleteEvent (Event.id editing)
    (handleDeleteEvent (Event.id editing) events)
  = handleDeleteEvent (Event.id editing) events.
Proof.
  split; [|split; [|split; [|split]]].
  - intros Hin. unfold handleSaveEvent.
    rewrite find_map_replace by reflexivity.
    replace (id_eqb (Event.id editing) (Event.id editing)) with true
      by (symmetry; apply id_eqb_eq; reflexivity).
    destruct (find _ events) as [e|] eqn:Ef; [reflexivity|].
    apply in_map_iff in Hin as (x & Hx & Hxin).
    pose proof (find_none _ _ Ef x Hxin) as Hn. cbv beta in Hn.
    apply id_eqb_false in Hn. congruence.
  - intros Hne. unfold handleSaveEvent.
    rewrite find_map_replace by reflexivity.
    replace (id_eqb (Event.id editing) other) with false; [reflexivity|].
    symmetry. apply id_eqb_false. congruence.
  - unfold handleDeleteEvent. induction events as [|e l IH]; [reflexivity|].
    cbn [filter]. destruct (id_eqb (Event.id e) (Event.id editing)) eqn:E;
      cbn [negb find]; [exact IH|]. rewrite E. exact IH.
  - intros Hne. unfold handleDeleteEvent.
    induction events as [|e l IH]; [reflexivity|].
    cbn [filter find].
    destruct (id_eqb (Event.id e) (Event.id editing)) eqn:E; cbn [negb find].
    + apply id_eqb_eq in E.
      replace (id_eqb (Event.id e) other) with false; [exact IH|].
      symmetry. apply id_eqb_false. congruence.
    + rewrite IH. reflexivity.
  - unfold handleDeleteEvent. induction events as [|e l IH]; [reflexivity|].
    cbn [filter]. destruct (id_eqb (Event.id e) (Event.id editing)) eqn:E;
      cbn [negb filter]; [exact IH|]. rewrite E. cbn [negb]. rewrite IH.
    reflexivity.
Qed.

(** Witness for X14: editing the first of two stored events. *)
Lemma edit_and_delete_by_id_witness :
  find (fun e => id_eqb (Event.id e) (Some "a"))
       (handleSaveEvent (Some (timed "a" "2024-03-05" "09:00" "10:00")) "x"
          (timed "" "2024-03-07" "11:00" "12:00")
          [timed "a" "2024-03-05" "09:00" "10:00";
           timed "b" "2024-03-06" "09:00" "10:00"])
  = Some (timed "a" "2024-03-07" "11:00" "12:00").
Proof.
  apply (proj1 (edit_and_delete_by_id
                  (timed "a" "2024-03-05" "09:00" "10:00")
                  (timed "" "2024-03-07" "11:00" "12:00") "x" None
                  [timed "a" "2024-03-05" "09:00" "10:00";
                   timed "b" "2024-03-06" "09:00" "10:00"])).
  left. reflexivity.
Defined.

(** X15.  An event dropped on a date is listed on that date: after
    [handleEventDrop] the moved single event, now stored under the formatted
    date, is listed by [getEventsForDate] exactly for the query dates on
    the calendar day it was dropped on (years 1 to 9999). *)
Theorem dropped_event_is_listed (format : Z -> string -> string) (now : Z)
    (eventId : option string) (newDate q : Z) (events : list Event.t)
    (event : Event.t) :
  (forall u, format u "yyyy-MM-dd" = format_yyyy_MM_dd u) ->
  find (fun e => id_eqb (Event.id e) eventId) events = Some event ->
  Event.recurring event = false ->
  wfDate (Some newDate) -> 1 <= YearFromTime newDate <= 9999 ->
  wfDate (Some q) ->
  (In (withDate event (format_yyyy_MM_dd newDate))
      (getEventsForDate IsoFormat.parseISO now
         (handleEventDrop format eventId newDate events) (Some q))
   <-> Day q = Day newDate).
Proof.
  intros Hf Hfind Hr Hwf Hy Hq.
  unfold handleEventDrop. rewrite Hfind, Hf.
  apply find_some in Hfind as [Hin Hid].
  unfold getEventsForDate. cbn [isValid negb]. rewrite filter_In.
  rewrite occursOn_single by (cbn [withDate Event.recurring]; rewrite Hr; reflexivity).
  cbn [withDate Event.date].
  rewrite parseDate_valid; rewrite parseISO_format by assumption;
    [|reflexivity].
  assert (Hm : wfDate (Some (Day newDate * msPerDay))).
  { rewrite <- startOfDay_Some by exact Hwf. apply startOfDay_wf. }
  rewrite isSameDay_Some, Z.eqb_eq, Day_midnight by assumption.
  split; [intros [_ E]; congruence|]. intros E. split; [|congruence].
  apply in_map_iff. exists event. rewrite Hid. split; [reflexivity|exact Hin].
Qed.

(** Witness for X15: the event stored for 2024-03-05 is dropped on
    2024-03-06 and is then listed for that day. *)
Lemma dropped_event_is_listed_witness :
  In (withDate (timed "a" "2024-03-05" "09:00" "10:00") "2024-03-06")
     (getEventsForDate IsoFormat.parseISO noon_2024_03_05
        (handleEventDrop (fun u _ => format_yyyy_MM_dd u) (Some "a")
           noon_2024_03_06 [timed "a" "2024-03-05" "09:00" "10:00"])
        (Some noon_2024_03_06)).
Proof.
  apply (dropped_event_is_listed (fun u _ => format_yyyy_MM_dd u)
           noon_2024_03_05 (Some "a") noon_2024_03_06 noon_2024_03_06
           [timed "a" "2024-03-05" "09:00" "10:00"]
           (timed "a" "2024-03-05" "09:00" "10:00")).
  - intros u. reflexivity.
  - reflexivity.
  - reflexivity.
  - vm_compute. split; discriminate.
  - vm_compute. split; discriminate.
  - vm_compute. split; discriminate.
  - reflexivity.
Defined.

(** * Sorting the events of a day *)

Import EventOrder.

Section SortFacts.
Variable localeCompare : string -> string -> Z.
Hypothesis compare_total :
  forall a b, localeCompare a b <= 0 \/ localeCompare b a <= 0.
Hypothesis compare_trans :
  forall a b c, localeCompare a b <= 0 -> localeCompare b c <= 0 ->
                localeCompare a c <= 0.

Local Abbreviation notAfter a b := (compareByTime localeCompare a b <= 0).

Lemma insertByTime_perm (x : Event.t) (l : list Event.t) :
  Permutation (x :: l) (insertByTime localeCompare x l).
Proof.
  induction l as [|y l IH]; cbn [insertByTime]; [reflexivity|].
  destruct (compareByTime localeCompare x y <=? 0); [reflexivity|].
  rewrite perm_swap. apply perm_skip. exact IH.
Qed.

Lemma insertByTime_sorted (x : Event.t) (l : list Event.t) :
  StronglySorted (fun a b => notAfter a b) l ->
  StronglySorted (fun a b => notAfter a b) (insertByTime localeCompare x l).
Proof.
  induction 1 as [|y l Hl IH Hy]; cbn [insertByTime].
  - constructor; constructor.
  - destruct (Z.leb_spec (compareByTime localeCompare x y) 0) as [Hle|Hgt].
    + constructor; [constructor; assumption|].
      constructor; [exact Hle|].
      eapply Forall_impl; [|exact Hy]. intros z Hz.
      unfold compareByTime in *. eapply compare_trans; eassumption.
    + constructor; [exact IH|].
      assert (Hyx : notAfter y x).
      { unfold compareByTime in *.
        destruct (compare_total (startTimeOrMidnight y) (startTimeOrMidnight x));
          [assumption|lia]. }
      eapply Permutation_Forall; [apply insertByTime_perm|].
      constructor; assumption.
Qed.

Lemma insertByTime_stable (key : string) (x : Event.t) (l : list Event.t) :
  filter (fun e => String.eqb (startTimeOrMidnight e) key)
         (insertByTime localeCompare x l)
  = filter (fun e => String.eqb (startTimeOrMidnight e) key) (x :: l).
Proof.
  induction l as [|y l IH]; cbn [insertByTime]; [reflexivity|].
  destruct (Z.leb_spec (compareByTime localeCompare x y) 0) as [Hle|Hgt];
    [reflexivity|].
  cbn [filter] in *. rewrite IH.
  destruct (String.eqb (startTimeOrMidnight x) key) eqn:Ex; [|reflexivity].
  destruct (String.eqb (startTimeOrMidnight y) key) eqn:Ey; [|reflexivity].
  apply String.eqb_eq in Ex. apply String.eqb_eq in Ey.
  unfold compareByTime in Hgt. rewrite Ex, Ey in Hgt.
  destruct (compare_total key key); lia.
Qed.

End SortFacts.

(** X16.  For a comparison of time strings that is total and transitive,
    [sortEventsByTime] returns the same events, ordered by start time with a
    missing start time counted as "00:00", and keeps events with the same
    start time in the order they had. *)
Theorem sortEventsByTime_stable_sort (localeCompare : string -> string -> Z)
    (events : list Event.t) :
  (forall a b, localeCompare a b <= 0 \/ localeCompare b a <= 0) ->
  (forall a b c, localeCompare a b <= 0 -> localeCompare b c <= 0 ->
                 localeCompare a c <= 0) ->
  Permutation events (sortEventsByTime localeCompare events) /\
  StronglySorted
    (fun a b => localeCompare (startTimeOrMidnight a) (startTimeOrMidnight b)
                <= 0)
    (sortEventsByTime localeCompare events) /\
  (forall key,
     filter (fun e => String.eqb (startTimeOrMidnight e) key)
            (sortEventsByTime localeCompare events)
     = filter (fun e => String.eqb (startTimeOrMidnight e) key) events).
Proof.
  intros Htotal Htrans. unfold sortEventsByTime.
  split; [|split].
  - induction events as [|e l IH]; cbn [fold_right]; [constructor|].
    rewrite <- insertByTime_perm. apply perm_skip. exact IH.
  - induction events as [|e l IH]; cbn [fold_right]; [constructor|].
    apply (insertByTime_sorted localeCompare Htotal Htrans). exact IH.
  - intros key. induction events as [|e l IH]; cbn [fold_right]; [reflexivity|].
    rewrite (insertByTime_stable localeCompare Htotal).
    cbn [filter]. rewrite IH. reflexivity.
Qed.

(** Witness for X16: comparison by the length of the strings, on three
    events of which one has no start time. *)
Lemma sortEventsByTime_stable_sort_witness :
  Permutation
    [timed "a" "2024-03-05" "12:00" "13:00";
     timed "b" "2024-03-05" "" "10:00";
     timed "c" "2024-03-05" "09:00" "10:00"]
    (sortEventsByTime
       (fun a b => Z.of_nat (String.length a) - Z.of_nat (String.length b))
       [timed "a" "2024-03-05" "12:00" "13:00";
        timed "b" "2024-03-05" "" "10:00";
        timed "c" "2024-03-05" "09:00" "10:00"]).
Proof.
  apply (sortEventsByTime_stable_sort
           (fun a b => Z.of_nat (String.length a) - Z.of_nat (String.length b))).
  - intros a b. lia.
  - intros a b c. lia.
Defined.

(** * The sample events *)

Import SampleData.

Lemma years_within (t : Z) : 1 <= YearFromTime t <= 9999 -> within 1000 t.
Proof.
  intros Hy. unfold YearFromTime in Hy.
  pose proof (monthOfDay_spec (Day t)) as Hs.
  assert (Hk : 12 <= monthOfDay (Day t) <= 119999)
    by (Z.div_mod_to_equations; lia).
  pose proof (monthStart_mono 12 (monthOfDay (Day t)) ltac:(lia)) as Hlo.
  pose proof (monthStart_mono (monthOfDay (Day t) + 1) 120000 ltac:(lia)) as Hhi.
  assert (E12 : monthStart 12 = -719162) by reflexivity.
  assert (E120000 : monthStart 120000 = 2932897) by reflexivity.
  pose proof (Day_bounds t) as Hb.
  unfold within, maxTime, msPerDay in *. lia.
Qed.

(** One year after a date that is not near the end of the range of time
    values is a valid date. *)
Lemma addYears_valid (a : Z) :
  within 400 a -> exists m, addYears (Some a) 1 = Some m.
Proof.
  intros Hw. unfold addYears. change (1 * 12) with 12.
  rewrite addMonths_unfold by lia.
  set (k := monthOfDay (Day a)).
  pose proof (monthOfDay_spec (Day a)) as Hs. fold k in Hs.
  pose proof (monthStart_year k) as Hyear.
  pose proof (monthStart_step (k + 12)) as Hstep.
  pose proof (monthStart_step k) as Hfirst.
  pose proof (monthStart_add k 12 ltac:(lia)) as Hadd.
  pose proof (Day_bounds a) as Hb. destruct (time_split a) as [_ Htw].
  pose proof (DateFromTime_range a) as HD.
  unfold within in Hw.
  rewrite TimeClip_in_range by (unfold MakeDate, maxTime, msPerDay in *; lia).
  assert (Hke : monthOfDay (Day (MakeDate (monthStart (k + 12 + 1) - 1)
                                          (TimeWithinDay a))) = k + 12).
  { apply monthOfDay_unique. rewrite Day_MakeDate by exact Htw. lia. }
  destruct (_ >=? _); [eexists; reflexivity|].
  rewrite Hke.
  rewrite TimeClip_in_range; [eexists; reflexivity|].
  unfold DateFromTime in *. fold k in HD. fold k.
  unfold MakeDate, maxTime, msPerDay in *. lia.
Qed.

(** X17.  While [generateSampleEvents] is called in years 1 to 9999, it
    returns three events of which [getEventsForDate] lists the weekly Team
    Meeting and the daily Lunch Break for the day of the call, and the Lunch
    Break and the Doctor Appointment for the day after, whenever the
    listing is made. *)
Theorem sample_events_listed (format : Z -> string -> string) (now : Z) :
  (forall u, format u "yyyy-MM-dd" = format_yyyy_MM_dd u) ->
  1 <= YearFromTime now <= 9999 ->
  1 <= YearFromTime (now + msPerDay) <= 9999 ->
  exists samples,
    generateSampleEvents format now = Some samples /\
    forall clock,
      map Event.title
          (getEventsForDate IsoFormat.parseISO clock samples (Some now))
        = ["Team Meeting"; "Lunch Break"] /\
      map Event.title
          (getEventsForDate IsoFormat.parseISO clock samples
             (Some (now + msPerDay)))
        = ["Lunch Break"; "Doctor Appointment"].
Proof.
  intros Hf Hy Hy'.
  pose proof (years_within now Hy) as Hw.
  pose proof (years_within _ Hy') as Hw'.
  assert (Hwf : wfDate (Some now)) by (apply (within_wf 1000); [lia|exact Hw]).
  assert (Hwf' : wfDate (Some (now + msPerDay)))
    by (apply (within_wf 1000); [lia|exact Hw']).
  unfold generateSampleEvents. cbv zeta. rewrite setDate_eq.
  replace (now + (DateFromTime now + 1 - DateFromTime now) * msPerDay)
    with (now + msPerDay) by lia.
  rewrite TimeClip_in_range by exact Hwf'.
  rewrite !Hf. eexists. split; [reflexivity|]. intros clock.
  set (a := Day now * msPerDay).
  assert (Hpa : IsoFormat.parseISO (format_yyyy_MM_dd now) = Some a)
    by (apply parseISO_format; assumption).
  assert (Hpb : IsoFormat.parseISO (format_yyyy_MM_dd (now + msPerDay))
                = Some ((Day now + 1) * msPerDay)).
  { rewrite parseISO_format by assumption.
    replace (now + msPerDay) with (now + 1 * msPerDay) by lia.
    rewrite Day_add_days. reflexivity. }
  assert (Hawf : wfDate (Some a)).
  { unfold a. rewrite <- startOfDay_Some by exact Hwf. apply startOfDay_wf. }
  assert (Hbwf : wfDate (Some ((Day now + 1) * msPerDay))).
  { replace (Day now + 1) with (Day (now + 1 * msPerDay))
      by apply Day_add_days.
    replace (now + 1 * msPerDay) with (now + msPerDay) by lia.
    rewrite <- startOfDay_Some by exact Hwf'. apply startOfDay_wf. }
  assert (Hda : Day a = Day now) by apply Day_midnight.
  assert (Hdq : Day (now + msPerDay) = Day now + 1).
  { replace (now + msPerDay) with (now + 1 * msPerDay) by lia.
    apply Day_add_days. }
  destruct (addYears_valid a) as [m Hm].
  { pose proof (Day_bounds now). unfold within, a, msPerDay in *. lia. }
  pose proof (addYears_1 _ _ Hm) as Hmb.
  set (s1 := Event.make (Some "sample-1") "Team Meeting" _ _ _ _ _ _ _ _).
  set (s2 := Event.make (Some "sample-2") "Lunch Break" _ _ _ _ _ _ _ _).
  set (s3 := Event.make (Some "sample-3") "Doctor Appointment" _ _ _ _ _ _ _ _).
  assert (Hweekly : forall q, wfDate (Some q) ->
    (occursOn IsoFormat.parseISO clock (Some q) s1 = true
     <-> exists k, 0 <= k /\ Day q = Day a + k * 7 /\ a + k * 7 * msPerDay <= m)).
  { intros q Hq.
    apply (occursOn_daily_weekly IsoFormat.parseISO clock s1 a m q);
      [reflexivity|right; reflexivity|exact Hpa|exact Hawf|exact Hm|exact Hq]. }
  assert (Hdaily : forall q, wfDate (Some q) ->
    (occursOn IsoFormat.parseISO clock (Some q) s2 = true
     <-> exists k, 0 <= k /\ Day q = Day a + k * 1 /\ a + k * 1 * msPerDay <= m)).
  { intros q Hq.
    apply (occursOn_daily_weekly IsoFormat.parseISO clock s2 a m q);
      [reflexivity|left; reflexivity|exact Hpa|exact Hawf|exact Hm|exact Hq]. }
  assert (Hsingle : forall q, wfDate (Some q) ->
    occursOn IsoFormat.parseISO clock (Some q) s3 = (Day now + 1 =? Day q)).
  { intros q Hq. rewrite occursOn_single by reflexivity.
    cbn [s3 Event.date]. rewrite parseDate_valid by (rewrite Hpb; reflexivity).
    rewrite Hpb, isSameDay_Some by assumption. rewrite Day_midnight.
    reflexivity. }
  assert (H1today : occursOn IsoFormat.parseISO clock (Some now) s1 = true).
  { apply Hweekly; [exact Hwf|]. exists 0. unfold msPerDay in *. lia. }
  assert (H2today : occursOn IsoFormat.parseISO clock (Some now) s2 = true).
  { apply Hdaily; [exact Hwf|]. exists 0. unfold msPerDay in *. lia. }
  assert (H3today : occursOn IsoFormat.parseISO clock (Some now) s3 = false).
  { rewrite Hsingle by exact Hwf. apply Z.eqb_neq. lia. }
  assert (H1next : occursOn IsoFormat.parseISO clock (Some (now + msPerDay)) s1
                   = false).
  { apply not_true_is_false. intros H. apply Hweekly in H; [|exact Hwf'].
    destruct H as (k & Hk & Hday & _). lia. }
  assert (H2next : occursOn IsoFormat.parseISO clock (Some (now + msPerDay)) s2
                   = true).
  { apply Hdaily; [exact Hwf'|]. exists 1. unfold a, msPerDay in *. lia. }
  assert (H3next : occursOn IsoFormat.parseISO clock (Some (now + msPerDay)) s3
                   = true).
  { rewrite Hsingle by exact Hwf'. apply Z.eqb_eq. lia. }
  unfold getEventsForDate. cbn [isValid negb filter].
  rewrite H1today, H2today, H3today, H1next, H2next, H3next.
  split; reflexivity.
Qed.

(** Witness for X17: the samples generated at noon of 2024-03-05. *)
Lemma sample_events_listed_witness :
  exists samples,
    generateSampleEvents (fun u _ => format_yyyy_MM_dd u) noon_2024_03_05
      = Some samples /\
    forall clock,
      map Event.title
          (getEventsForDate IsoFormat.parseISO clock samples
             (Some noon_2024_03_05))
        = ["Team Meeting"; "Lunch Break"] /\
      map Event.title
          (getEventsForDate IsoFormat.parseISO clock samples
             (Some (noon_2024_03_05 + msPerDay)))
        = ["Lunch Break"; "Doctor Appointment"].
Proof.
  apply (sample_events_listed (fun u _ => format_yyyy_MM_dd u) noon_2024_03_05).
  - intros u. reflexivity.
  - vm_compute. split; discriminate.
  - vm_compute. split; discriminate.
Defined.
